(** * lapor-bot: streak accounting, leaderboard and command routing

    A shallow embedding of the use cases of the WhatsApp activity tracker
    ([internal/app/usecase]) together with the parts of the domain model
    ([internal/domain/report.go]), of the repository
    ([internal/infra/sqlite]) and of Go's [time] and [fmt] packages that
    they rely on, followed by the properties of the specification. *)

From Stdlib Require Import ZArith String Ascii List DecimalString DecimalPos
  Sorted Lia.
From stdpp Require Import base option list gmap strings sorting.

Open Scope string_scope.
Open Scope Z_scope.

(* ===================================================================== *)
(** * Go's [int] *)
(* ===================================================================== *)

(** The binary is built for a 64-bit platform ([GOOS=linux], static build),
    where [int] is a 64-bit two's complement integer.  Values are kept in
    [Z]; arithmetic wraps around silently, as Go specifies. *)
Module GoInt.

Definition MinInt : Z := - 2 ^ 63.
Definition MaxInt : Z := 2 ^ 63 - 1.

Definition inRange (z : Z) : Prop := MinInt <= z <= MaxInt.

Definition wrap (z : Z) : Z := (z + 2 ^ 63) mod 2 ^ 64 - 2 ^ 63.

Definition add (a b : Z) : Z := wrap (a + b).

(** [x++] *)
Definition incr (x : Z) : Z := add x 1.

(** [strconv.Itoa], the rendering of [%d]. *)
Definition itoa (z : Z) : string := NilZero.string_of_int (Z.to_int z).

End GoInt.

(* ===================================================================== *)
(** * Go's [time.Time] *)
(* ===================================================================== *)

(** A [time.Time] is an instant together with a location.  The instant is
    kept as seconds since the Unix epoch (the use cases never look below the
    second: every instant they compare is a midnight built by [time.Date]
    with zero nanoseconds).  A location is a fixed offset east of UTC in
    seconds, which is what [time.Parse(time.RFC3339, _)] yields for stored
    timestamps and what [time.Local] is for a zone without daylight saving. *)
Module GoTime.

Definition Location : Type := Z.
Definition UTC : Location := 0.

Record Time : Type := mkTime { unix : Z; location : Location }.

Definition secondsPerDay : Z := 86400.

(** ** Civil calendar (proleptic Gregorian) *)

Definition isLeap (year : Z) : bool :=
  (year mod 4 =? 0) && (negb (year mod 100 =? 0) || (year mod 400 =? 0)).

(** Number of leap years in the years [1 .. y]. *)
Definition leapsThrough (y : Z) : Z := y / 4 - y / 100 + y / 400.

(** Days from 1970-01-01 to January 1st of [year]. *)
Definition daysSinceEpoch (year : Z) : Z :=
  365 * (year - 1970) + leapsThrough (year - 1) - leapsThrough 1969.

(** [daysBefore[m]]: days in a non-leap year before month [m+1] starts. *)
Definition daysBefore (m : Z) : Z :=
  match m with
  | 0 => 0 | 1 => 31 | 2 => 59 | 3 => 90 | 4 => 120 | 5 => 151
  | 6 => 181 | 7 => 212 | 8 => 243 | 9 => 273 | 10 => 304 | 11 => 334
  | _ => 365
  end.

(** Days since the epoch of the civil date [year-month-day]; the month is
    normalised into [1..12] by carrying into the year, the day is taken as
    it comes (day 0 is the last day of the previous month, and so on), as
    [time.Date] does. *)
Definition daysFromCivil (year month day : Z) : Z :=
  let m := month - 1 in
  let year := year + m / 12 in
  let m := m mod 12 in
  daysSinceEpoch year + daysBefore m
  + (if isLeap year && (2 <=? m) then 1 else 0)
  + (day - 1).

(** The civil date of a day number: the inverse of [daysFromCivil] on real
    dates, computed per 400-year era. *)
Definition civilFromDays (n : Z) : Z * Z * Z :=
  let z := n + 719468 in
  let era := z / 146097 in
  let doe := z mod 146097 in
  let yoe := (doe - doe / 1460 + doe / 36524 - doe / 146096) / 365 in
  let doy := doe - (365 * yoe + yoe / 4 - yoe / 100) in
  let mp := (5 * doy + 2) / 153 in
  let d := doy - (153 * mp + 2) / 5 + 1 in
  let m := if mp <? 10 then mp + 3 else mp - 9 in
  let y := yoe + era * 400 in
  (if m <=? 2 then y + 1 else y, m, d).

(** Seconds on the wall clock of the time's own location. *)
Definition wallSeconds (t : Time) : Z := unix t + location t.

(** Day number of the calendar day the time falls on, in its own location. *)
Definition calendarDay (t : Time) : Z := wallSeconds t / secondsPerDay.

Definition Year (t : Time) : Z := fst (fst (civilFromDays (calendarDay t))).
Definition Month (t : Time) : Z := snd (fst (civilFromDays (calendarDay t))).
Definition Day (t : Time) : Z := snd (civilFromDays (calendarDay t)).

Definition secondOfDay (t : Time) : Z := wallSeconds t mod secondsPerDay.
Definition Hour (t : Time) : Z := secondOfDay t / 3600.
Definition Minute (t : Time) : Z := (secondOfDay t mod 3600) / 60.
Definition Second (t : Time) : Z := secondOfDay t mod 60.

(** [time.Date(year, month, day, hour, min, sec, 0, loc)] *)
Definition Date (year month day hour min sec : Z) (loc : Location) : Time :=
  {| unix := daysFromCivil year month day * secondsPerDay
             + hour * 3600 + min * 60 + sec - loc;
     location := loc |}.

(** [t.AddDate(years, months, days)] *)
Definition AddDate (t : Time) (years months days : Z) : Time :=
  Date (Year t + years) (Month t + months) (Day t + days)
       (Hour t) (Minute t) (Second t) (location t).

(** [t.Equal(u)]: same instant, whatever the locations. *)
Definition Equal (t u : Time) : bool := unix t =? unix u.

Fixpoint zeros (n : nat) : string :=
  match n with
  | O => ""
  | S k => "0" +:+ zeros k
  end.

(** Zero-padded decimal of a non-negative number, at least [width] digits. *)
Definition zeroPad (width : nat) (s : string) : string :=
  zeros (width - String.length s) +:+ s.

Definition appendInt (x : Z) (width : nat) : string :=
  if x <? 0 then "-" +:+ zeroPad width (GoInt.itoa (- x))
  else zeroPad width (GoInt.itoa x).

(** [t.Format("02-01-2006")] *)
Definition Format_02_01_2006 (t : Time) : string :=
  appendInt (Day t) 2 +:+ "-" +:+ appendInt (Month t) 2 +:+ "-"
  +:+ appendInt (Year t) 4.

(** The expression [time.Date(t.Year(), t.Month(), t.Day(), 0, 0, 0, 0,
    t.Location())] that both use cases apply to [now] and to the stored
    timestamp. *)
Definition midnight (t : Time) : Time :=
  Date (Year t) (Month t) (Day t) 0 0 0 (location t).

End GoTime.

(* ===================================================================== *)
(** * [internal/domain]: the report ledger and its repository interface *)
(* ===================================================================== *)

Module domain.

Record Report : Type := mkReport {
  UserID : string;
  Name : string;
  Streak : Z;
  ActivityCount : Z;
  LastReportDate : GoTime.Time
}.

(** A non-nil value of Go's [error] interface. *)
Inductive error : Type := errorString (msg : string).

(** [type ReportRepository interface].  Every method threads the state of
    the implementation; a result pair is Go's [(value, err)], with [None]
    for a nil pointer and for a nil error. *)
Class ReportRepository (R : Type) : Type := {
  GetReport : string -> R -> (option Report * option error) * R;
  UpsertReport : Report -> R -> option error * R;
  GetAllReports : R -> (list Report * option error) * R
}.

End domain.

Export domain.

(* ===================================================================== *)
(** * [sort.Slice] *)
(* ===================================================================== *)

(** [sort.Slice(x, less)] is taken by its contract: it reorders the slice
    (nothing is added or lost) and, when [less] is a strict weak ordering,
    leaves no element before one that is [less] than it.  It is not stable,
    so the order of ties is left to the implementation. *)
Class SliceSorter : Type :=
  sort_Slice : forall A : Type, (A -> A -> bool) -> list A -> list A.

Definition StrictWeakOrder {A : Type} (less : A -> A -> bool) : Prop :=
  (forall a b, less a b = true -> less b a = false) /\
  (forall a b c, less b a = false -> less c b = false -> less c a = false).

(** No element is followed, anywhere later, by one that is [less] than it. *)
Definition SortedBy {A : Type} (less : A -> A -> bool) (l : list A) : Prop :=
  StronglySorted (fun a b => less b a = false) l.

Class SliceSorterLaws (S : SliceSorter) : Prop := {
  sort_Slice_Permutation :
    forall (A : Type) (less : A -> A -> bool) (l : list A),
      Permutation (sort_Slice A less l) l;
  sort_Slice_sorted :
    forall (A : Type) (less : A -> A -> bool) (l : list A),
      StrictWeakOrder less -> SortedBy less (sort_Slice A less l)
}.

(** A sorter that meets the contract: merge sort on "not less the other way
    round". *)
Definition mergeSorter : SliceSorter :=
  fun A less l =>
    @merge_sort A (fun a b => less b a = false)
      (fun a b => bool_eq_dec (less b a) false) l.

(* ===================================================================== *)
(** * [internal/app/usecase]: reporting an activity *)
(* ===================================================================== *)

Definition nl : string := String (ascii_of_nat 10) EmptyString.

Module ReportActivityUsecase.

(** [fmt.Sprintf("%s sudah laporan hari ini, ayo jangan curang! 😉", name)] *)
Definition rejectedMessage (name : string) : string :=
  name +:+ " sudah laporan hari ini, ayo jangan curang! 😉".

(** [fmt.Sprintf("Laporan diterima, %s sudah berkeringat %d hari. Lanjutkan 🔥",
    name, count)] *)
Definition acceptedMessage (name : string) (count : Z) : string :=
  "Laporan diterima, " +:+ name +:+ " sudah berkeringat "
  +:+ GoInt.itoa count +:+ " hari. Lanjutkan 🔥".

(** The body of [Execute] between the read and the write: either the early
    return of the same-day rejection (left), or the report to be upserted
    (right). *)
Definition transition (now : GoTime.Time) (userID name : string)
    (report : option Report) : string + Report :=
  let today := GoTime.midnight now in
  match report with
  | Some report =>
      let lastReport := LastReportDate report in
      let lastReportDate := GoTime.midnight lastReport in
      if GoTime.Equal lastReportDate today then
        inl (rejectedMessage name)
      else
        let yesterday := GoTime.AddDate today 0 0 (-1) in
        let streak :=
          if GoTime.Equal lastReportDate yesterday
          then GoInt.incr (Streak report)
          else 1 in
        inr {| UserID := UserID report;
               Name := name;
               Streak := streak;
               ActivityCount := GoInt.incr (ActivityCount report);
               LastReportDate := now |}
  | None =>
      inr {| UserID := userID;
             Name := name;
             Streak := 1;
             ActivityCount := 1;
             LastReportDate := now |}
  end.

(** [func (uc *ReportActivityUsecase) Execute(ctx, userID, name) (string, error)];
    [now] is the value of [time.Now()]. *)
Definition Execute {R : Type} `{ReportRepository R}
    (now : GoTime.Time) (userID name : string) (repo : R)
  : (string * option error) * R :=
  let '((report, err), repo) := GetReport userID repo in
  match err with
  | Some e => (("", Some e), repo)
  | None =>
      match transition now userID name report with
      | inl rejected => ((rejected, None), repo)
      | inr report =>
          let '(err, repo) := UpsertReport report repo in
          match err with
          | Some e => (("", Some e), repo)
          | None =>
              ((acceptedMessage name (ActivityCount report), None), repo)
          end
      end
  end.

End ReportActivityUsecase.

(* ===================================================================== *)
(** * [internal/app/usecase]: the leaderboard *)
(* ===================================================================== *)

Module GetLeaderboardUsecase.

(** The condition of the partitioning loop. *)
Definition isActive (now : GoTime.Time) (r : Report) : bool :=
  let today := GoTime.midnight now in
  let yesterday := GoTime.AddDate today 0 0 (-1) in
  let lastReportDate := GoTime.midnight (LastReportDate r) in
  GoTime.Equal lastReportDate today || GoTime.Equal lastReportDate yesterday.

(** The partitioning loop: [keepStreak] and [loseStreak] grow by [append]. *)
Definition partition (now : GoTime.Time) (reports : list Report)
  : list Report * list Report :=
  fold_left
    (fun '(keepStreak, loseStreak) r =>
       if isActive now r
       then ((keepStreak ++ [r])%list, loseStreak)
       else (keepStreak, (loseStreak ++ [r])%list))
    reports ([], []).

(** [func(i, j int) bool { return x[i].Streak > x[j].Streak }] *)
Definition byStreakDesc (a b : Report) : bool := Streak a >? Streak b.

(** The header loop over [ActivityCount]. *)
Definition maxDay (reports : list Report) : Z :=
  if (0 <? Z.of_nat (length reports)) then
    fold_left
      (fun maxDay r =>
         if ActivityCount r >? maxDay then ActivityCount r else maxDay)
      reports 0
  else 0.

Definition activeLine (rank : Z) (r : Report) : string :=
  GoInt.itoa rank +:+ ". " +:+ Name r +:+ " - " +:+ GoInt.itoa (Streak r)
  +:+ " days streak 🔥" +:+ nl.

Definition lostLine (rank : Z) (r : Report) : string :=
  GoInt.itoa rank +:+ ". " +:+ Name r +:+ " - Day "
  +:+ GoInt.itoa (ActivityCount r) +:+ " 💔" +:+ nl.

(** A rendering loop: one line per report appended to the builder, [rank++]
    after each. *)
Definition writeLines (line : Z -> Report -> string) (rs : list Report)
    (st : string * Z) : string * Z :=
  fold_left
    (fun '(sb, rank) r => (sb +:+ line rank r, GoInt.incr rank))
    rs st.

Definition header (maxDay : Z) (dateStr : string) : string :=
  "30 Days of Sweat Challenge – Day " +:+ GoInt.itoa maxDay
  +:+ " (" +:+ dateStr +:+ ")" +:+ nl +:+ nl.

Definition recap (maxDay : Z) (keepStreak loseStreak : list Report) : string :=
  "Recap day " +:+ GoInt.itoa maxDay +:+ ":" +:+ nl
  +:+ (GoInt.itoa (Z.of_nat (length keepStreak))
       +:+ " peoples keep the streak 🔥" +:+ nl)
  +:+ (GoInt.itoa (Z.of_nat (length loseStreak))
       +:+ " lose the streak 💔" +:+ nl)
  +:+ (nl +:+ "Update klasemen sementara:" +:+ nl).

Definition footer : string :=
  nl +:+ "Yang udah keringetan langsung update/posting aja nanti dimasukkin klasemen 💪"
  +:+ nl +:+ nl +:+ "Semangat🔥".

(** The two partitions after [sort.Slice]. *)
Definition ranked `{SliceSorter} (now : GoTime.Time) (reports : list Report)
  : list Report * list Report :=
  let '(keepStreak, loseStreak) := partition now reports in
  (sort_Slice Report byStreakDesc keepStreak,
   sort_Slice Report byStreakDesc loseStreak).

(** Everything [Execute] does after the read. *)
Definition render `{SliceSorter} (now : GoTime.Time) (reports : list Report)
  : string :=
  let '(keepStreak, loseStreak) := ranked now reports in
  let maxDay := maxDay reports in
  let sb := "" in
  let dateStr := GoTime.Format_02_01_2006 now in
  let sb := sb +:+ header maxDay dateStr in
  let sb := sb +:+ recap maxDay keepStreak loseStreak in
  let rank := 1 in
  let '(sb, rank) := writeLines activeLine keepStreak (sb, rank) in
  let '(sb, rank) := writeLines lostLine loseStreak (sb, rank) in
  sb +:+ footer.

(** [func (uc *GetLeaderboardUsecase) Execute(ctx) (string, error)] *)
Definition Execute {R : Type} `{ReportRepository R} `{SliceSorter}
    (now : GoTime.Time) (repo : R) : (string * option error) * R :=
  let '((reports, err), repo) := GetAllReports repo in
  match err with
  | Some e => (("", Some e), repo)
  | None => ((render now reports, None), repo)
  end.

End GetLeaderboardUsecase.

(* ===================================================================== *)
(** * [internal/app/usecase]: command routing *)
(* ===================================================================== *)

Module HandleMessageUsecase.

(** Modelled from the spec: [handle_message_usecase.go] is not among the
    sources (only its test and its caller in [cmd/bot/main.go] are).  The
    spec (4.1) says: the router normalizes [rawText] by trimming surrounding
    whitespace and comparing case-insensitively against the two command
    prefixes; on a [#lapor] prefix it invokes the streak accounting
    operation with (memberId, displayName) and returns its result as-is; on
    a [#leaderboard] prefix it invokes the leaderboard operation and returns
    its result as-is; otherwise it returns an empty result.  Whitespace and
    letter case are those of ASCII. *)

Definition isSpace (c : ascii) : bool :=
  match nat_of_ascii c with
  | 9%nat | 10%nat | 11%nat | 12%nat | 13%nat | 32%nat => true
  | _ => false
  end.

Definition toLowerAscii (c : ascii) : ascii :=
  let n := nat_of_ascii c in
  if (Nat.leb 65 n && Nat.leb n 90)%bool then ascii_of_nat (n + 32) else c.

Fixpoint ToLower (s : string) : string :=
  match s with
  | EmptyString => EmptyString
  | String c s' => String (toLowerAscii c) (ToLower s')
  end.

Fixpoint trimLeft (s : string) : string :=
  match s with
  | EmptyString => EmptyString
  | String c s' => if isSpace c then trimLeft s' else s
  end.

Fixpoint trimRight (s : string) : string :=
  match s with
  | EmptyString => EmptyString
  | String c s' =>
      match trimRight s' with
      | EmptyString => if isSpace c then EmptyString else String c EmptyString
      | t => String c t
      end
  end.

Definition TrimSpace (s : string) : string := trimRight (trimLeft s).

Definition HasPrefix (s prefix : string) : bool := String.prefix prefix s.

Definition Execute {R : Type} `{ReportRepository R} `{SliceSorter}
    (now : GoTime.Time) (userID name text : string) (repo : R)
  : (string * option error) * R :=
  let cmd := ToLower (TrimSpace text) in
  if HasPrefix cmd "#lapor" then
    ReportActivityUsecase.Execute now userID name repo
  else if HasPrefix cmd "#leaderboard" then
    GetLeaderboardUsecase.Execute now repo
  else
    (("", None), repo).

End HandleMessageUsecase.

(* ===================================================================== *)
(** * Repositories *)
(* ===================================================================== *)

(** An in-memory repository that behaves as the sqlite repository does: one
    row per [user_id], [GetReport] builds a fresh [Report] from the row,
    [UpsertReport] inserts or replaces the row keyed by the report's
    [UserID], [GetAllReports] lists the rows [ORDER BY streak DESC].  It
    never fails (like the [mockRepo] of the tests) and keeps a journal of
    the calls it has received. *)
Module memrepo.

Record Row : Type := mkRow {
  name : string;
  streak : Z;
  activity_count : Z;
  last_report_date : GoTime.Time
}.

Inductive Call : Type :=
| CallGetReport (userID : string)
| CallUpsertReport (report : Report)
| CallGetAllReports.

Record MemRepo : Type := mkMemRepo {
  user_reports : gmap string Row;
  journal : list Call
}.

Definition toRow (r : Report) : Row :=
  {| name := Name r; streak := Streak r;
     activity_count := ActivityCount r;
     last_report_date := LastReportDate r |}.

Definition toReport (userID : string) (row : Row) : Report :=
  {| UserID := userID; Name := name row; Streak := streak row;
     ActivityCount := activity_count row;
     LastReportDate := last_report_date row |}.

Definition record (c : Call) (db : MemRepo) : MemRepo :=
  {| user_reports := user_reports db; journal := (journal db ++ [c])%list |}.

Definition getReport (userID : string) (db : MemRepo)
  : (option Report * option error) * MemRepo :=
  ((toReport userID <$> (user_reports db !! userID), None),
   record (CallGetReport userID) db).

Definition upsertReport (report : Report) (db : MemRepo)
  : option error * MemRepo :=
  (None,
   {| user_reports := <[UserID report := toRow report]> (user_reports db);
      journal := (journal db ++ [CallUpsertReport report])%list |}).

Definition getAllReports (db : MemRepo)
  : (list Report * option error) * MemRepo :=
  ((mergeSorter Report GetLeaderboardUsecase.byStreakDesc
      (uncurry toReport <$> map_to_list (user_reports db)), None),
   record CallGetAllReports db).

#[global] Instance memRepository : ReportRepository MemRepo := {
  GetReport := getReport;
  UpsertReport := upsertReport;
  GetAllReports := getAllReports
}.

End memrepo.

(** A repository whose storage can be made to fail: a read or a write
    returns the configured error and leaves the rows as they are. *)
Module faultyrepo.

Record FaultyRepo : Type := mkFaultyRepo {
  inner : memrepo.MemRepo;
  readError : option error;
  writeError : option error
}.

Definition withInner (db : FaultyRepo) (m : memrepo.MemRepo) : FaultyRepo :=
  {| inner := m; readError := readError db; writeError := writeError db |}.

Definition getReport (userID : string) (db : FaultyRepo)
  : (option Report * option error) * FaultyRepo :=
  match readError db with
  | Some e =>
      ((None, Some e),
       withInner db (memrepo.record (memrepo.CallGetReport userID) (inner db)))
  | None =>
      let '(res, m) := memrepo.getReport userID (inner db) in
      (res, withInner db m)
  end.

Definition upsertReport (report : Report) (db : FaultyRepo)
  : option error * FaultyRepo :=
  match writeError db with
  | Some e =>
      (Some e,
       withInner db
         (memrepo.record (memrepo.CallUpsertReport report) (inner db)))
  | None =>
      let '(res, m) := memrepo.upsertReport report (inner db) in
      (res, withInner db m)
  end.

Definition getAllReports (db : FaultyRepo)
  : (list Report * option error) * FaultyRepo :=
  match readError db with
  | Some e =>
      (([], Some e),
       withInner db (memrepo.record memrepo.CallGetAllReports (inner db)))
  | None =>
      let '(res, m) := memrepo.getAllReports (inner db) in
      (res, withInner db m)
  end.

#[global] Instance faultyRepository : ReportRepository FaultyRepo := {
  GetReport := getReport;
  UpsertReport := upsertReport;
  GetAllReports := getAllReports
}.

End faultyrepo.

(* ===================================================================== *)
(** * Ledger invariants and scenarios *)
(* ===================================================================== *)

(** The invariants of the data model on a stored row. *)
Definition ledgerInvariant (row : memrepo.Row) : Prop :=
  1 <= memrepo.streak row /\
  1 <= memrepo.activity_count row /\
  memrepo.streak row <= memrepo.activity_count row.


Definition streakDescending (rs : list Report) : Prop :=
  StronglySorted (fun a b => Streak b <= Streak a) rs.

(** Strings made of whitespace only, and strings without any. *)
Fixpoint allSpace (s : string) : bool :=
  match s with
  | EmptyString => true
  | String c s' => HandleMessageUsecase.isSpace c && allSpace s'
  end.

Fixpoint noSpace (s : string) : bool :=
  match s with
  | EmptyString => true
  | String c s' => negb (HandleMessageUsecase.isSpace c) && noSpace s'
  end.

(** The text is: whitespace, then the command token in any letter case, then
    anything. *)
Definition startsWithCommand (text token : string) : Prop :=
  exists pre tok rest,
    allSpace pre = true
    /\ HandleMessageUsecase.ToLower tok = token
    /\ text = pre +:+ tok +:+ rest.


(** Concrete situations, most of them the ones of the test suite. *)
Module scenario.

(** 2026-02-06 22:30:45 at UTC+7. *)
Definition now : GoTime.Time := GoTime.mkTime 1770391845 25200.

Definition daysAgo (n : Z) : GoTime.Time :=
  GoTime.mkTime (1770391845 - n * 86400) 25200.

Definition emptyDb : memrepo.MemRepo := memrepo.mkMemRepo ∅ [].

Definition dbWith (userID : string) (row : memrepo.Row) : memrepo.MemRepo :=
  memrepo.mkMemRepo {[ userID := row ]} [].

Definition bob : memrepo.Row := memrepo.mkRow "Bob" 5 10 (daysAgo 1).
Definition charlie : memrepo.Row := memrepo.mkRow "Charlie" 20 25 (daysAgo 3).
Definition eve : memrepo.Row := memrepo.mkRow "Eve" 36 36 (daysAgo 30).


(** Rows stamped in UTC, as a database written by a process running in UTC
    holds them: 2026-02-06 14:00:00Z and 2026-02-05 14:00:00Z. *)
Definition dianaUTC : memrepo.Row :=
  memrepo.mkRow "Diana" 7 15 (GoTime.mkTime 1770386400 GoTime.UTC).


(** A row whose activity count is the largest [int]. *)
Definition grace : memrepo.Row :=
  memrepo.mkRow "Grace" 1 GoInt.MaxInt (daysAgo 1).

(** The three members of the leaderboard test: one lost a week ago with the
    highest total, two active. *)
Definition high : memrepo.Row :=
  memrepo.mkRow "HighTotal_LostStreak" 0 30 (daysAgo 7).
Definition medium : memrepo.Row :=
  memrepo.mkRow "MediumTotal_ActiveStreak" 25 25 (daysAgo 1).
Definition low : memrepo.Row :=
  memrepo.mkRow "LowTotal_ActiveStreak" 10 10 now.


(** The same members as [GetAllReports] hands them over. *)
Definition members : list Report :=
  [ memrepo.toReport "user2" medium;
    memrepo.toReport "user3" low;
    memrepo.toReport "user1" high ].

(** A repository whose reads fail, and one whose writes fail. *)
Definition unreadable (e : error) : faultyrepo.FaultyRepo :=
  faultyrepo.mkFaultyRepo (dbWith "user1" bob) (Some e) None.
Definition unwritable (e : error) : faultyrepo.FaultyRepo :=
  faultyrepo.mkFaultyRepo (dbWith "user1" bob) None (Some e).

Definition readFailure : error := errorString "database is locked".
Definition writeFailure : error := errorString "disk I/O error".

End scenario.

(* ===================================================================== *)
(** * Reports over several days *)
(* ===================================================================== *)

(** The same member reporting at each of the given times, one after the
    other, as the test suite does to simulate successive days. *)
Fixpoint reportEach (nows : list GoTime.Time) (userID name : string)
    (db : memrepo.MemRepo) : memrepo.MemRepo :=
  match nows with
  | [] => db
  | now :: rest =>
      reportEach rest userID name
        (snd (ReportActivityUsecase.Execute now userID name db))
  end.

(** Each time is in the location of the one before and falls on the next
    calendar day. *)
Fixpoint consecutiveDays (prev : GoTime.Time) (nows : list GoTime.Time)
  : Prop :=
  match nows with
  | [] => True
  | now :: rest =>
      GoTime.location now = GoTime.location prev
      /\ GoTime.calendarDay now = GoTime.calendarDay prev + 1
      /\ consecutiveDays now rest
  end.

(** The instant, in Unix seconds, at which the calendar day of a time
    starts in the time's own location. *)
Definition dayStart (t : GoTime.Time) : Z :=
  GoTime.calendarDay t * 86400 - GoTime.location t.

(* ===================================================================== *)
(** * [internal/config] *)
(* ===================================================================== *)

(** The two parsers of Go's [strconv] that the configuration uses, by their
    contract; [None] stands for a non-nil error. *)
Module strconv.

Definition digitValue (c : ascii) : option Z :=
  let n := Z.of_nat (nat_of_ascii c) in
  if (48 <=? n) && (n <=? 57) then Some (n - 48) else None.

Fixpoint parseDigits (s : string) (n : Z) : option Z :=
  match s with
  | EmptyString => Some n
  | String ch s' =>
      match digitValue ch with
      | Some d => parseDigits s' (n * 10 + d)
      | None => None
      end
  end.

(** [strconv.Atoi]: an optional sign, then one or more decimal digits, the
    value within the range of [int]. *)
Definition Atoi (s : string) : option Z :=
  match s with
  | EmptyString => None
  | String c s' =>
      let neg := Ascii.eqb c "-" in
      let digits := if Ascii.eqb c "-" || Ascii.eqb c "+" then s' else s in
      match digits with
      | EmptyString => None
      | _ =>
          match parseDigits digits 0 with
          | None => None
          | Some n =>
              let v := if neg then - n else n in
              if (GoInt.MinInt <=? v) && (v <=? GoInt.MaxInt)
              then Some v else None
          end
      end
  end.

Definition trueSpellings : list string :=
  ["1"; "t"; "T"; "TRUE"; "true"; "True"].
Definition falseSpellings : list string :=
  ["0"; "f"; "F"; "FALSE"; "false"; "False"].

(** [strconv.ParseBool] *)
Definition ParseBool (str : string) : option bool :=
  if existsb (String.eqb str) trueSpellings then Some true
  else if existsb (String.eqb str) falseSpellings then Some false
  else None.

End strconv.

Module config.

Record Config : Type := mkConfig {
  Port : string;
  SQLitePath : string;
  GroupID : string;
  BotPhone : string;
  ReplyDelayMinMs : Z;
  ReplyDelayMaxMs : Z;
  ShowTyping : bool
}.

(** The process environment, as it is once [godotenv.Load] has run. *)
Abbreviation Environ := (gmap string string).

(** [os.Getenv]: the empty string for a variable that is not set. *)
Definition Getenv (env : Environ) (key : string) : string :=
  default "" (env !! key).

Definition getenv (env : Environ) (key fallback : string) : string :=
  let v := Getenv env key in
  if negb (String.eqb v "") then v else fallback.

Definition getenvInt (env : Environ) (key : string) (fallback : Z) : Z :=
  let v := Getenv env key in
  if negb (String.eqb v "") then
    match strconv.Atoi v with
    | Some i => i
    | None => fallback
    end
  else fallback.

Definition getenvBool (env : Environ) (key : string) (fallback : bool)
  : bool :=
  let v := Getenv env key in
  if negb (String.eqb v "") then
    match strconv.ParseBool v with
    | Some b => b
    | None => fallback
    end
  else fallback.

(** [func Load() Config]; the [Port] field is not among the fields the
    composite literal sets. *)
Definition Load (env : Environ) : Config :=
  let sqlitePath := getenv env "SQLITE_PATH" "./data/whatsapp.db" in
  let groupID := getenv env "GROUP_ID" "" in
  let botPhone := getenv env "BOT_PHONE" "" in
  let replyDelayMinMs := getenvInt env "REPLY_DELAY_MIN_MS" 0 in
  let replyDelayMaxMs := getenvInt env "REPLY_DELAY_MAX_MS" 0 in
  let showTyping := getenvBool env "SHOW_TYPING" false in
  {| Port := "";
     SQLitePath := sqlitePath;
     GroupID := groupID;
     BotPhone := botPhone;
     ReplyDelayMinMs := replyDelayMinMs;
     ReplyDelayMaxMs := replyDelayMaxMs;
     ShowTyping := showTyping |}.

End config.

(* ===================================================================== *)
(** * [cmd/bot]: the message handler *)
(* ===================================================================== *)

(** The closure that [main] registers with [SetMessageHandler].  What it
    does to the outside world is kept as the list of its calls, in order;
    the use case it invokes, the answer of the LID lookup, the draw of the
    random generator and the result of the transport's send are taken as
    they come. *)
Module bot.

Inductive Presence : Type := ChatPresenceComposing | ChatPresencePaused.

Inductive Action : Type :=
| ResolveLIDToPhone (lid : string)
| Printf (text : string)
| LogPrintf (text : string)
| SendChatPresence (chat : string) (presence : Presence)
| Sleep (nanoseconds : Z)
| SendMessage (chat : string) (conversation : string).

(** The fields of [*events.Message] that the handler reads;
    [ExtendedTextMessage] is [None] for a nil message and [Some None] for a
    message whose [Text] is nil. *)
Record Event : Type := mkEvent {
  Chat : string;
  IsFromMe : bool;
  SenderServer : string;
  SenderUser : string;
  PushName : string;
  Conversation : option string;
  ExtendedTextMessage : option (option string)
}.

Inductive Outcome (R : Type) : Type :=
| Returned (actions : list Action) (repo : R)
| Panicked (actions : list Action) (repo : R).

Arguments Returned {R} actions repo.
Arguments Panicked {R} actions repo.

(** [types.DefaultUserServer] of the whatsmeow library. *)
Definition DefaultUserServer : string := "s.whatsapp.net".

Definition looksLikeLID (evt : Event) : bool :=
  String.eqb (SenderServer evt) "lid"
  || (String.eqb (SenderServer evt) DefaultUserServer
      && (15 <? Z.of_nat (String.length (SenderUser evt)))).

Definition userIDOf (resolve : string -> string) (evt : Event) : string :=
  if looksLikeLID evt then resolve (SenderUser evt) else SenderUser evt.

Definition pushNameOf (evt : Event) : string :=
  if String.eqb (PushName evt) "" then "Unknown" else PushName evt.

Definition textOf (evt : Event) : string :=
  match Conversation evt with
  | Some conversation => conversation
  | None =>
      match ExtendedTextMessage evt with
      | Some (Some text) => text
      | _ => ""
      end
  end.

(** [rand.Intn(n)]: panics unless [n] is positive. *)
Definition Intn (draw n : Z) : option Z :=
  if n <=? 0 then None else Some (draw mod n).

(** The delay before the reply, in milliseconds. *)
Definition replyDelayMs (cfg : config.Config) (draw : Z) : option Z :=
  let delayMs := config.ReplyDelayMinMs cfg in
  if config.ReplyDelayMaxMs cfg >? config.ReplyDelayMinMs cfg then
    match Intn draw
            (GoInt.add
               (GoInt.add (config.ReplyDelayMaxMs cfg)
                  (- config.ReplyDelayMinMs cfg)) 1) with
    | Some r => Some (GoInt.add (config.ReplyDelayMinMs cfg) r)
    | None => None
    end
  else Some delayMs.

(** [time.Duration(delayMs) * time.Millisecond], in nanoseconds. *)
Definition millis (delayMs : Z) : Z := GoInt.wrap (delayMs * 1000000).

Definition typing (cfg : config.Config) (evt : Event) (presence : Presence)
  : list Action :=
  if config.ShowTyping cfg then [SendChatPresence (Chat evt) presence]
  else [].

Definition sendReply (cfg : config.Config) (evt : Event) (delayMs : Z)
    (response : string) (sendError : option error) : list Action :=
  ((if delayMs >? 0 then
      typing cfg evt ChatPresenceComposing
      ++ [LogPrintf ("Delaying reply by " +:+ GoInt.itoa delayMs +:+ "ms");
          Sleep (millis delayMs)]
      ++ typing cfg evt ChatPresencePaused
    else [])
   ++ [SendMessage (Chat evt) response]
   ++ match sendError with
      | Some (errorString e) =>
          [LogPrintf ("Failed to send response: " +:+ e)]
      | None => []
      end)%list.

Definition handler {R : Type}
    (cfg : config.Config)
    (resolve : string -> string)
    (handleMessage : string -> string -> string -> R
                     -> (string * option error) * R)
    (draw : Z) (sendError : option error)
    (evt : Event) (repo : R) : Outcome R :=
  if negb (String.eqb (config.GroupID cfg) "")
     && negb (String.eqb (Chat evt) (config.GroupID cfg))
  then Returned [] repo
  else if IsFromMe evt then Returned [] repo
  else
    let lookup :=
      if looksLikeLID evt then [ResolveLIDToPhone (SenderUser evt)] else [] in
    let userID := userIDOf resolve evt in
    let pushName := pushNameOf evt in
    let msg := textOf evt in
    if String.eqb msg "" then Returned lookup repo
    else
      let printed :=
        (lookup
         ++ [Printf ("Message from " +:+ pushName +:+ " (" +:+ userID
                     +:+ "): " +:+ msg +:+ nl)])%list in
      let '((response, err), repo) := handleMessage userID pushName msg repo in
      match err with
      | Some (errorString e) =>
          Returned
            (printed ++ [LogPrintf ("Error handling message: " +:+ e)])%list
            repo
      | None =>
          if negb (String.eqb response "") then
            match replyDelayMs cfg draw with
            | None => Panicked printed repo
            | Some delayMs =>
                Returned
                  (printed ++ sendReply cfg evt delayMs response sendError)%list
                  repo
            end
          else Returned printed repo
      end.

(** The messages an outcome sent, and the presences it signalled. *)
Definition actionsOf {R : Type} (o : Outcome R) : list Action :=
  match o with
  | Returned actions _ => actions
  | Panicked actions _ => actions
  end.

Definition repoOf {R : Type} (o : Outcome R) : R :=
  match o with
  | Returned _ repo => repo
  | Panicked _ repo => repo
  end.

Definition sentMessages (actions : list Action) : list (string * string) :=
  flat_map (fun a => match a with
                     | SendMessage chat text => [(chat, text)]
                     | _ => []
                     end) actions.

Definition presences (actions : list Action) : list Presence :=
  flat_map (fun a => match a with
                     | SendChatPresence _ p => [p]
                     | _ => []
                     end) actions.

Definition sleeps (actions : list Action) : list Z :=
  flat_map (fun a => match a with
                     | Sleep ns => [ns]
                     | _ => []
                     end) actions.

End bot.

(* ===================================================================== *)
(** * The helpers of the use case tests *)
(* ===================================================================== *)

Module usecase_test.

(** The loop of [indexOf] with [remaining] iterations to go, at index [i]:
    [s[i:i+len(substr)] == substr] returns [i]. *)
Fixpoint indexOfFrom (remaining : nat) (i : nat) (s substr : string) : Z :=
  match remaining with
  | O => -1
  | Datatypes.S remaining' =>
      if String.eqb (String.substring i (String.length substr) s) substr
      then Z.of_nat i
      else indexOfFrom remaining' (Datatypes.S i) s substr
  end.

(** [for i := 0; i <= len(s)-len(substr); i++]: the body runs
    [len(s)-len(substr)+1] times, or not at all when that is not positive. *)
Definition indexOf (s substr : string) : Z :=
  indexOfFrom
    (Z.to_nat (Z.of_nat (String.length s) - Z.of_nat (String.length substr)
               + 1))
    O s substr.

Definition containsSubstring (s substr : string) : bool :=
  indexOf s substr >=? 0.

End usecase_test.

(* ===================================================================== *)
(** * Facts about [int] *)
(* ===================================================================== *)

Lemma wrap_inRange z : GoInt.inRange (GoInt.wrap z).
Proof.
  unfold GoInt.inRange, GoInt.wrap, GoInt.MinInt, GoInt.MaxInt.
  pose proof (Z.mod_pos_bound (z + 2 ^ 63) (2 ^ 64) ltac:(lia)). lia.
Qed.

Lemma wrap_small z : GoInt.inRange z -> GoInt.wrap z = z.
Proof.
  unfold GoInt.inRange, GoInt.wrap, GoInt.MinInt, GoInt.MaxInt. intros Hz.
  rewrite Z.mod_small by lia. lia.
Qed.

Lemma incr_small x :
  GoInt.MinInt <= x < GoInt.MaxInt -> GoInt.incr x = x + 1.
Proof.
  intros Hx. unfold GoInt.incr, GoInt.add. apply wrap_small.
  unfold GoInt.inRange, GoInt.MinInt, GoInt.MaxInt in *. lia.
Qed.

Lemma incr_MaxInt : GoInt.incr GoInt.MaxInt = GoInt.MinInt.
Proof. reflexivity. Qed.

(* ===================================================================== *)
(** * Facts about the calendar *)
(* ===================================================================== *)

(** Evaluates the arithmetic and the comparisons between numerals that a
    case analysis leaves in the goal. *)
Ltac fold_ground_Z :=
  repeat match goal with
  | |- context [?f ?a ?b] =>
      lazymatch f with
      | Z.add => idtac | Z.sub => idtac | Z.mul => idtac
      | Z.div => idtac | Z.modulo => idtac
      | Z.leb => idtac | Z.ltb => idtac | Z.eqb => idtac
      end;
      lazymatch a with Z0 => idtac | Zpos _ => idtac | Zneg _ => idtac end;
      lazymatch b with Z0 => idtac | Zpos _ => idtac | Zneg _ => idtac end;
      let v := eval vm_compute in (f a b) in change (f a b) with v
  end.

(** The date computed for a day number is a date of that day: converting it
    back gives the day number, and month and day are in range. *)
Lemma civilFromDays_daysFromCivil n :
  let '(y, m, d) := GoTime.civilFromDays n in
  GoTime.daysFromCivil y m d = n /\ 1 <= m <= 12 /\ 1 <= d <= 31.
Proof.
  unfold GoTime.civilFromDays.
  set (z := n + 719468).
  set (era := z / 146097).
  set (doe := z mod 146097).
  set (yoe := (doe - doe / 1460 + doe / 36524 - doe / 146096) / 365).
  set (doy := doe - (365 * yoe + yoe / 4 - yoe / 100)).
  set (mp := (5 * doy + 2) / 153).
  assert (Hdoe : 0 <= doe < 146097) by (apply Z.mod_pos_bound; lia).
  assert (Hz : n = 146097 * era + doe - 719468).
  { pose proof (Z.div_mod z 146097 ltac:(lia)). subst z era doe. lia. }
  assert (Hy : 0 <= yoe < 400 /\ 0 <= doy < 366).
  { subst doy yoe. clearbody doe. clear - Hdoe. Z.div_mod_to_equations. lia. }
  assert (Hdoy : doe = doy + (365 * yoe + yoe / 4 - yoe / 100))
    by (subst doy; lia).
  assert (Hmpd : mp = (5 * doy + 2) / 153) by reflexivity.
  clearbody mp doy yoe doe era. clear z.
  assert (Hcase : mp = 0 \/ mp = 1 \/ mp = 2 \/ mp = 3 \/ mp = 4 \/ mp = 5 \/
                  mp = 6 \/ mp = 7 \/ mp = 8 \/ mp = 9 \/ mp = 10 \/ mp = 11).
  { clear - Hy Hmpd. Z.div_mod_to_equations. lia. }
  unfold GoTime.daysFromCivil, GoTime.daysSinceEpoch, GoTime.leapsThrough,
    GoTime.isLeap.
  repeat (destruct Hcase as [Hc | Hcase]);
    try rename Hcase into Hc; rewrite Hc in *; fold_ground_Z;
    cbv iota beta delta [GoTime.daysBefore andb orb negb];
    fold_ground_Z;
    repeat match goal with
           | |- context [ (?a =? ?b) ] =>
               destruct (Z.eqb_spec a b);
               cbv iota beta delta [andb orb negb]
           end;
    (split;
     [ Z.div_mod_to_equations; lia
     | clear - Hy Hmpd; Z.div_mod_to_equations; lia ]).
Qed.

Lemma daysFromCivil_date (t : GoTime.Time) :
  GoTime.daysFromCivil (GoTime.Year t) (GoTime.Month t) (GoTime.Day t)
  = GoTime.calendarDay t.
Proof.
  unfold GoTime.Year, GoTime.Month, GoTime.Day.
  pose proof (civilFromDays_daysFromCivil (GoTime.calendarDay t)) as H.
  destruct (GoTime.civilFromDays (GoTime.calendarDay t)) as [[y m] d].
  apply H.
Qed.

(** [time.Date] is linear in its day argument. *)
Lemma daysFromCivil_shift_day y m d k :
  GoTime.daysFromCivil y m (d + k) = GoTime.daysFromCivil y m d + k.
Proof. unfold GoTime.daysFromCivil. lia. Qed.

(** Midnight is the start of the calendar day, in the time's location. *)
Lemma unix_midnight t :
  GoTime.unix (GoTime.midnight t)
  = GoTime.calendarDay t * 86400 - GoTime.location t.
Proof.
  unfold GoTime.midnight, GoTime.Date. cbn [GoTime.unix].
  rewrite daysFromCivil_date. unfold GoTime.secondsPerDay. lia.
Qed.

Lemma location_midnight t :
  GoTime.location (GoTime.midnight t) = GoTime.location t.
Proof. reflexivity. Qed.

Lemma calendarDay_midnight t :
  GoTime.calendarDay (GoTime.midnight t) = GoTime.calendarDay t.
Proof.
  unfold GoTime.calendarDay at 1. unfold GoTime.wallSeconds.
  rewrite unix_midnight, location_midnight. unfold GoTime.secondsPerDay.
  replace (GoTime.calendarDay t * 86400 - GoTime.location t
           + GoTime.location t)
    with (GoTime.calendarDay t * 86400) by lia.
  apply Z.div_mul. lia.
Qed.

Lemma secondOfDay_midnight t : GoTime.secondOfDay (GoTime.midnight t) = 0.
Proof.
  unfold GoTime.secondOfDay, GoTime.wallSeconds.
  rewrite unix_midnight, location_midnight. unfold GoTime.secondsPerDay.
  replace (GoTime.calendarDay t * 86400 - GoTime.location t
           + GoTime.location t)
    with (GoTime.calendarDay t * 86400) by lia.
  apply Z.mod_mul. lia.
Qed.

(** [today.AddDate(0, 0, -1)] is the midnight one day earlier. *)
Lemma unix_yesterday t :
  GoTime.unix (GoTime.AddDate (GoTime.midnight t) 0 0 (-1))
  = (GoTime.calendarDay t - 1) * 86400 - GoTime.location t.
Proof.
  unfold GoTime.AddDate, GoTime.Date. cbn [GoTime.unix].
  unfold GoTime.Hour, GoTime.Minute, GoTime.Second.
  rewrite secondOfDay_midnight, location_midnight.
  rewrite !Z.add_0_r, daysFromCivil_shift_day, daysFromCivil_date.
  rewrite calendarDay_midnight. unfold GoTime.secondsPerDay.
  fold_ground_Z. lia.
Qed.



(* ===================================================================== *)
(** * Facts about the sorter *)
(* ===================================================================== *)

Lemma mergeSorter_laws : SliceSorterLaws mergeSorter.
Proof.
  split.
  - intros A less l. unfold sort_Slice, mergeSorter.
    apply merge_sort_Permutation.
  - intros A less l [Hasym Htrans]. unfold SortedBy, sort_Slice, mergeSorter.
    apply StronglySorted_merge_sort.
    + intros a b c Hab Hbc. exact (Htrans a b c Hab Hbc).
    + intros a b. destruct (less b a) eqn:Hba.
      * right. apply Hasym. exact Hba.
      * left. reflexivity.
Qed.

Lemma byStreakDesc_StrictWeakOrder :
  StrictWeakOrder GetLeaderboardUsecase.byStreakDesc.
Proof.
  unfold StrictWeakOrder, GetLeaderboardUsecase.byStreakDesc. split.
  - intros a b. rewrite Z.gtb_ltb, Z.ltb_lt, Z.gtb_ltb, Z.ltb_ge. lia.
  - intros a b c. rewrite !Z.gtb_ltb, !Z.ltb_ge. lia.
Qed.

(* ===================================================================== *)
(** * The streak state machine *)
(* ===================================================================== *)


(** [Execute] against the in-memory repository: one read, then either the
    rejection or one write of the new report. *)
Lemma Execute_memrepo now userID name (db : memrepo.MemRepo) :
  ReportActivityUsecase.Execute now userID name db
  = match ReportActivityUsecase.transition now userID name
            (memrepo.toReport userID <$> memrepo.user_reports db !! userID)
    with
    | inl rejected =>
        ((rejected, None),
         memrepo.record (memrepo.CallGetReport userID) db)
    | inr report =>
        ((ReportActivityUsecase.acceptedMessage name (ActivityCount report),
          None),
         {| memrepo.user_reports :=
              <[UserID report := memrepo.toRow report]>
                (memrepo.user_reports db);
            memrepo.journal :=
              (memrepo.journal db
               ++ [memrepo.CallGetReport userID;
                   memrepo.CallUpsertReport report])%list |})
    end.
Proof.
  unfold ReportActivityUsecase.Execute. cbn.
  destruct (ReportActivityUsecase.transition _ _ _ _) as [msg|report];
    [reflexivity|].
  cbn. rewrite <- app_assoc. reflexivity.
Qed.

(* ===================================================================== *)
(** * Claims on the streak accounting operation *)
(* ===================================================================== *)

(** C3.  A member without a record: the operation stores the row
    [streak = 1, activity_count = 1, last_report_date = now] under the
    member's name, by one read followed by one upsert, and answers exactly
    "Laporan diterima, {name} sudah berkeringat 1 hari. Lanjutkan 🔥". *)
Theorem first_report_creates_record
    (now : GoTime.Time) (userID name : string) (db : memrepo.MemRepo) :
  memrepo.user_reports db !! userID = None ->
  ReportActivityUsecase.Execute now userID name db
  = (("Laporan diterima, " +:+ name
      +:+ " sudah berkeringat 1 hari. Lanjutkan 🔥", None),
     {| memrepo.user_reports :=
          <[userID := {| memrepo.name := name;
                         memrepo.streak := 1;
                         memrepo.activity_count := 1;
                         memrepo.last_report_date := now |}]>
            (memrepo.user_reports db);
        memrepo.journal :=
          (memrepo.journal db
           ++ [memrepo.CallGetReport userID;
               memrepo.CallUpsertReport
                 {| UserID := userID; Name := name; Streak := 1;
                    ActivityCount := 1; LastReportDate := now |}])%list |}).
Proof.
  intros Hnone. rewrite Execute_memrepo, Hnone. reflexivity.
Qed.




(** C4 (amended).  If the member's row, when there is one, satisfies
    [streak >= 1], [activity_count >= 1] and [activity_count >= streak], and
    its activity count is below the largest [int], then after the operation
    the member has a row and it satisfies the three inequalities, whichever
    branch was taken (creation, rejection, increment or reset). *)
Theorem ledger_invariant_preserved
    (now : GoTime.Time) (userID name : string) (db : memrepo.MemRepo) :
  (forall row, memrepo.user_reports db !! userID = Some row ->
               ledgerInvariant row
               /\ memrepo.activity_count row < GoInt.MaxInt) ->
  exists row',
    memrepo.user_reports
      (snd (ReportActivityUsecase.Execute now userID name db)) !! userID
    = Some row'
    /\ ledgerInvariant row'.
Proof.
  intros Hinv. rewrite Execute_memrepo.
  destruct (memrepo.user_reports db !! userID) as [row|] eqn:Hrow;
    cbn [fmap option_fmap option_map].
  - destruct (Hinv row eq_refl) as [(Hs & Hc & Hsc) Hmax].
    assert (Hcount : GoInt.incr (memrepo.activity_count row)
                     = memrepo.activity_count row + 1).
    { apply incr_small. unfold GoInt.MinInt. lia. }
    assert (Hstreak : GoInt.incr (memrepo.streak row)
                      = memrepo.streak row + 1).
    { apply incr_small. unfold GoInt.MinInt. lia. }
    unfold ReportActivityUsecase.transition.
    destruct (GoTime.Equal _ (GoTime.midnight now)).
    + exists row. cbn. split; [exact Hrow|]. unfold ledgerInvariant. lia.
    + cbn. rewrite lookup_insert_eq. eexists. split; [reflexivity|].
      unfold ledgerInvariant. cbn. rewrite Hcount.
      destruct (GoTime.Equal _ _); [rewrite Hstreak|]; lia.
  - cbn. rewrite lookup_insert_eq. eexists. split; [reflexivity|].
    unfold ledgerInvariant. cbn. lia.
Qed.

(** ** Witnesses and counterexamples *)

(** "Alice" reports for the first time. *)
Lemma first_report_creates_record_witness :
  memrepo.user_reports scenario.emptyDb !! "user1" = None
  /\ fst (ReportActivityUsecase.Execute scenario.now "user1" "Alice"
            scenario.emptyDb)
     = ("Laporan diterima, Alice sudah berkeringat 1 hari. Lanjutkan 🔥", None).
Proof.
  split; [reflexivity|].
  rewrite (first_report_creates_record scenario.now "user1" "Alice"
             scenario.emptyDb eq_refl).
  reflexivity.
Defined.







(** Charlie, streak 20 and count 25, last reported three days ago. *)
Lemma ledger_invariant_preserved_witness :
  exists row',
    memrepo.user_reports
      (snd (ReportActivityUsecase.Execute scenario.now "user1" "Charlie"
              (scenario.dbWith "user1" scenario.charlie))) !! "user1"
    = Some row'
    /\ ledgerInvariant row'.
Proof.
  apply (ledger_invariant_preserved scenario.now "user1" "Charlie"
           (scenario.dbWith "user1" scenario.charlie)).
  intros row Hrow. vm_compute in Hrow. injection Hrow as <-.
  unfold ledgerInvariant. vm_compute. intuition discriminate.
Defined.

(** At the largest [int] the activity count wraps around to the smallest:
    the row satisfied the three inequalities and no longer does. *)
Lemma ledger_invariant_counterexample :
  memrepo.user_reports (scenario.dbWith "user1" scenario.grace) !! "user1"
  = Some scenario.grace
  /\ ledgerInvariant scenario.grace
  /\ memrepo.user_reports
       (snd (ReportActivityUsecase.Execute scenario.now "user1" "Grace"
               (scenario.dbWith "user1" scenario.grace))) !! "user1"
     = Some (memrepo.mkRow "Grace" 2 GoInt.MinInt scenario.now)
  /\ ~ ledgerInvariant (memrepo.mkRow "Grace" 2 GoInt.MinInt scenario.now).
Proof.
  split; [reflexivity|].
  split; [unfold ledgerInvariant; vm_compute; intuition discriminate|].
  split; [vm_compute; reflexivity|].
  unfold ledgerInvariant. vm_compute. intros (_ & H & _). apply H. reflexivity.
Qed.

(* ===================================================================== *)
(** * The leaderboard *)
(* ===================================================================== *)

Lemma append_assoc (a b c : string) : (a +:+ b) +:+ c = a +:+ (b +:+ c).
Proof.
  induction a as [|ch a IH]; [reflexivity|].
  change (String ch ((a +:+ b) +:+ c) = String ch (a +:+ (b +:+ c))).
  rewrite IH. reflexivity.
Qed.


(** A loop that appends each element to one of two slices is a pair of
    filters. *)
Lemma fold_left_split {A : Type} (f : A -> bool) (l : list A) :
  forall keep lose : list A,
    fold_left
      (fun '(keepStreak, loseStreak) r =>
         if f r
         then ((keepStreak ++ [r])%list, loseStreak)
         else (keepStreak, (loseStreak ++ [r])%list))
      l (keep, lose)
    = ((keep ++ List.filter f l)%list,
       (lose ++ List.filter (fun r => negb (f r)) l)%list).
Proof.
  induction l as [|r rs IH]; intros keep lose.
  - cbn. rewrite !app_nil_r. reflexivity.
  - cbn [fold_left List.filter].
    destruct (f r); cbn [negb];
      rewrite IH; f_equal; symmetry; apply (List.app_assoc _ [r] _).
Qed.

(** The partitioning loop keeps the order of the reports: it is a filter. *)
Lemma partition_filter now reports :
  GetLeaderboardUsecase.partition now reports
  = (List.filter (GetLeaderboardUsecase.isActive now) reports,
     List.filter (fun r => negb (GetLeaderboardUsecase.isActive now r))
       reports).
Proof.
  unfold GetLeaderboardUsecase.partition.
  exact (fold_left_split (GetLeaderboardUsecase.isActive now) reports [] []).
Qed.




Section Ranking.

Context (S : SliceSorter) (laws : SliceSorterLaws S).

Lemma ranked_partition now reports :
  GetLeaderboardUsecase.ranked now reports
  = (sort_Slice Report GetLeaderboardUsecase.byStreakDesc
       (fst (GetLeaderboardUsecase.partition now reports)),
     sort_Slice Report GetLeaderboardUsecase.byStreakDesc
       (snd (GetLeaderboardUsecase.partition now reports))).
Proof.
  unfold GetLeaderboardUsecase.ranked.
  destruct (GetLeaderboardUsecase.partition now reports). reflexivity.
Qed.

Lemma elem_of_ranked_keep now reports r :
  r ∈ fst (GetLeaderboardUsecase.ranked now reports)
  <-> r ∈ reports /\ GetLeaderboardUsecase.isActive now r = true.
Proof.
  rewrite ranked_partition. cbn [fst].
  rewrite (sort_Slice_Permutation Report _ _), partition_filter. cbn [fst].
  rewrite !list_elem_of_In, filter_In. reflexivity.
Qed.



Lemma sort_Slice_streakDescending (rs : list Report) :
  streakDescending (sort_Slice Report GetLeaderboardUsecase.byStreakDesc rs).
Proof.
  pose proof (sort_Slice_sorted Report _ rs byStreakDesc_StrictWeakOrder)
    as Hsorted.
  unfold SortedBy in Hsorted. unfold streakDescending.
  induction Hsorted as [|a l Hl IH Hall]; constructor; [exact IH|].
  eapply Forall_impl; [exact Hall|].
  intros b Hb. unfold GetLeaderboardUsecase.byStreakDesc in Hb. cbn in Hb.
  rewrite Z.gtb_ltb, Z.ltb_ge in Hb. exact Hb.
Qed.

End Ranking.


(** The counter of the header: never below 0, and an upper bound of every
    activity count. *)
Lemma maxDay_fold reports :
  GetLeaderboardUsecase.maxDay reports
  = fold_left
      (fun maxDay r =>
         if ActivityCount r >? maxDay then ActivityCount r else maxDay)
      reports 0.
Proof.
  unfold GetLeaderboardUsecase.maxDay. destruct reports; reflexivity.
Qed.

Lemma maxDay_fold_spec reports : forall m0,
  let m := fold_left
      (fun maxDay r =>
         if ActivityCount r >? maxDay then ActivityCount r else maxDay)
      reports m0 in
  m0 <= m
  /\ (forall r, r ∈ reports -> ActivityCount r <= m)
  /\ (m = m0 \/ exists r, r ∈ reports /\ ActivityCount r = m).
Proof.
  induction reports as [|r rs IH]; intros m0; cbn [fold_left].
  - split; [lia|]. split; [|left; reflexivity].
    intros r Hr. inversion Hr.
  - set (m1 := if ActivityCount r >? m0 then ActivityCount r else m0).
    destruct (IH m1) as (Hle & Hub & Hwit).
    assert (Hm1 : m0 <= m1 /\ ActivityCount r <= m1
                  /\ (m1 = m0 \/ m1 = ActivityCount r)).
    { subst m1. rewrite Z.gtb_ltb.
      destruct (Z.ltb_spec m0 (ActivityCount r)); lia. }
    split; [lia|]. split.
    + intros r' Hr'. apply elem_of_cons in Hr' as [->|Hr']; [lia|].
      apply Hub. exact Hr'.
    + destruct Hwit as [Heq|(r' & Hr' & Heq)].
      * destruct Hm1 as (_ & _ & [H0|Hr]).
        -- left. lia.
        -- right. exists r. split; [apply elem_of_cons; left; reflexivity|].
           lia.
      * right. exists r'. split; [apply elem_of_cons; right; exact Hr'|].
        exact Heq.
Qed.


(** What the in-memory repository lists is its rows, each once. *)
Lemma elem_of_getAllReports (db : memrepo.MemRepo) (r : Report) :
  r ∈ fst (fst (GetAllReports db))
  <-> exists userID row,
        memrepo.user_reports db !! userID = Some row
        /\ r = memrepo.toReport userID row.
Proof.
  cbn [GetAllReports memrepo.memRepository memrepo.getAllReports fst].
  rewrite (@sort_Slice_Permutation mergeSorter mergeSorter_laws Report _ _).
  rewrite list_elem_of_fmap. split.
  - intros ([userID row] & -> & Hin). apply elem_of_map_to_list in Hin.
    exists userID, row. split; [exact Hin|reflexivity].
  - intros (userID & row & Hrow & ->). exists (userID, row).
    split; [reflexivity|]. apply elem_of_map_to_list. exact Hrow.
Qed.

(** [Execute] against the in-memory repository: one read of all rows. *)
Lemma leaderboard_Execute_memrepo (S : SliceSorter) now (db : memrepo.MemRepo) :
  GetLeaderboardUsecase.Execute now db
  = ((GetLeaderboardUsecase.render now (fst (fst (GetAllReports db))), None),
     {| memrepo.user_reports := memrepo.user_reports db;
        memrepo.journal :=
          (memrepo.journal db ++ [memrepo.CallGetAllReports])%list |}).
Proof. reflexivity. Qed.






(** ** Witnesses and counterexample for the leaderboard *)






(* ===================================================================== *)
(** * Persistence failures *)
(* ===================================================================== *)

(** C9.  Whatever the repository is: when [GetReport] returns an error, the
    operation returns the empty message with that very error and ends in the
    state the read left (no [UpsertReport] is issued); when the read
    succeeds, the report is not a same-day duplicate and [UpsertReport]
    returns an error, the operation returns the empty message with that very
    error and ends in the state that single write left.  On the repository
    with injected failures: a failed read is the only call received and a
    failed write is the only write received, and the rows stay as they
    were. *)
Theorem persistence_failure_surfaces
    (now : GoTime.Time) (userID name : string) :
  (forall (R : Type) (repository : ReportRepository R) (repo repo1 : R)
          (report : option Report) (e : error),
      GetReport userID repo = ((report, Some e), repo1) ->
      ReportActivityUsecase.Execute now userID name repo
      = (("", Some e), repo1))
  /\ (forall (R : Type) (repository : ReportRepository R) (repo repo1 repo2 : R)
             (report : option Report) (report' : Report) (e : error),
      GetReport userID repo = ((report, None), repo1) ->
      ReportActivityUsecase.transition now userID name report
      = inr report' ->
      UpsertReport report' repo1 = (Some e, repo2) ->
      ReportActivityUsecase.Execute now userID name repo
      = (("", Some e), repo2))
  /\ (forall (db : faultyrepo.FaultyRepo) (e : error),
      faultyrepo.readError db = Some e ->
      ReportActivityUsecase.Execute now userID name db
      = (("", Some e),
         faultyrepo.withInner db
           {| memrepo.user_reports :=
                memrepo.user_reports (faultyrepo.inner db);
              memrepo.journal :=
                (memrepo.journal (faultyrepo.inner db)
                 ++ [memrepo.CallGetReport userID])%list |}))
  /\ (forall (db : faultyrepo.FaultyRepo) (report' : Report) (e : error),
      faultyrepo.readError db = None ->
      faultyrepo.writeError db = Some e ->
      ReportActivityUsecase.transition now userID name
        (memrepo.toReport userID
         <$> memrepo.user_reports (faultyrepo.inner db) !! userID)
      = inr report' ->
      ReportActivityUsecase.Execute now userID name db
      = (("", Some e),
         faultyrepo.withInner db
           {| memrepo.user_reports :=
                memrepo.user_reports (faultyrepo.inner db);
              memrepo.journal :=
                (memrepo.journal (faultyrepo.inner db)
                 ++ [memrepo.CallGetReport userID;
                     memrepo.CallUpsertReport report'])%list |})).
Proof.
  split; [|split; [|split]].
  - intros R repository repo repo1 report e Hget.
    unfold ReportActivityUsecase.Execute. rewrite Hget. reflexivity.
  - intros R repository repo repo1 repo2 report report' e Hget Hstep Hput.
    unfold ReportActivityUsecase.Execute. rewrite Hget, Hstep, Hput.
    reflexivity.
  - intros db e Hread.
    unfold ReportActivityUsecase.Execute.
    cbn [GetReport faultyrepo.faultyRepository].
    unfold faultyrepo.getReport. rewrite Hread. reflexivity.
  - intros db report' e Hread Hwrite Hstep.
    unfold ReportActivityUsecase.Execute.
    cbn [GetReport UpsertReport faultyrepo.faultyRepository].
    unfold faultyrepo.getReport. rewrite Hread.
    unfold memrepo.getReport. cbn iota beta. rewrite Hstep.
    unfold faultyrepo.upsertReport.
    cbn [faultyrepo.withInner faultyrepo.writeError faultyrepo.inner
         faultyrepo.readError].
    rewrite Hwrite. unfold faultyrepo.withInner, memrepo.record.
    cbn [faultyrepo.inner faultyrepo.readError faultyrepo.writeError
         memrepo.user_reports memrepo.journal].
    rewrite <- (List.app_assoc _ [_] [_]). reflexivity.
Qed.

(** A locked database on the read, a failing disk on the write. *)
Lemma persistence_failure_surfaces_witness :
  ReportActivityUsecase.Execute scenario.now "user1" "Bob"
    (scenario.unreadable scenario.readFailure)
  = (("", Some scenario.readFailure),
     faultyrepo.mkFaultyRepo
       (memrepo.mkMemRepo {[ "user1" := scenario.bob ]}
          [memrepo.CallGetReport "user1"])
       (Some scenario.readFailure) None)
  /\ fst (ReportActivityUsecase.Execute scenario.now "user1" "Bob"
            (scenario.unwritable scenario.writeFailure))
     = ("", Some scenario.writeFailure).
Proof.
  destruct (persistence_failure_surfaces scenario.now "user1" "Bob")
    as (_ & _ & Hread & Hwrite).
  split.
  - rewrite (Hread (scenario.unreadable scenario.readFailure)
               scenario.readFailure eq_refl).
    reflexivity.
  - rewrite (Hwrite (scenario.unwritable scenario.writeFailure)
               (mkReport "user1" "Bob" 6 11 scenario.now)
               scenario.writeFailure eq_refl eq_refl
               ltac:(vm_compute; reflexivity)).
    reflexivity.
Defined.

(* ===================================================================== *)
(** * The command router *)
(* ===================================================================== *)

Lemma isSpace_toLowerAscii c :
  HandleMessageUsecase.isSpace (HandleMessageUsecase.toLowerAscii c)
  = HandleMessageUsecase.isSpace c.
Proof. destruct c as [[] [] [] [] [] [] [] []]; reflexivity. Qed.

Lemma ToLower_app a b :
  HandleMessageUsecase.ToLower (a +:+ b)
  = HandleMessageUsecase.ToLower a +:+ HandleMessageUsecase.ToLower b.
Proof.
  induction a as [|c a IH]; [reflexivity|].
  change (String (HandleMessageUsecase.toLowerAscii c)
            (HandleMessageUsecase.ToLower (a +:+ b))
          = String (HandleMessageUsecase.toLowerAscii c)
              (HandleMessageUsecase.ToLower a
               +:+ HandleMessageUsecase.ToLower b)).
  rewrite IH. reflexivity.
Qed.

Lemma noSpace_ToLower s : noSpace (HandleMessageUsecase.ToLower s) = noSpace s.
Proof.
  induction s as [|c s IH]; [reflexivity|].
  cbn [HandleMessageUsecase.ToLower noSpace].
  rewrite isSpace_toLowerAscii, IH. reflexivity.
Qed.

Lemma trimLeft_allSpace_app pre s :
  allSpace pre = true ->
  HandleMessageUsecase.trimLeft (pre +:+ s) = HandleMessageUsecase.trimLeft s.
Proof.
  induction pre as [|c pre IH]; [reflexivity|].
  cbn [allSpace]. intros [Hc Hpre]%andb_prop.
  change (HandleMessageUsecase.trimLeft (String c (pre +:+ s))
          = HandleMessageUsecase.trimLeft s).
  cbn [HandleMessageUsecase.trimLeft]. rewrite Hc. apply IH. exact Hpre.
Qed.

Lemma trimLeft_noSpace_app tok rest :
  noSpace tok = true -> tok <> "" ->
  HandleMessageUsecase.trimLeft (tok +:+ rest) = tok +:+ rest.
Proof.
  destruct tok as [|c tok]; [contradiction|].
  cbn [noSpace]. intros [Hc _]%andb_prop _.
  change (HandleMessageUsecase.trimLeft (String c (tok +:+ rest))
          = String c (tok +:+ rest)).
  cbn [HandleMessageUsecase.trimLeft].
  destruct (HandleMessageUsecase.isSpace c); [discriminate Hc|reflexivity].
Qed.

Lemma trimRight_noSpace_app tok rest :
  noSpace tok = true ->
  HandleMessageUsecase.trimRight (tok +:+ rest)
  = tok +:+ HandleMessageUsecase.trimRight rest.
Proof.
  induction tok as [|c tok IH]; [reflexivity|].
  cbn [noSpace]. intros [Hc Htok]%andb_prop.
  change (HandleMessageUsecase.trimRight (String c (tok +:+ rest))
          = String c (tok +:+ HandleMessageUsecase.trimRight rest)).
  cbn [HandleMessageUsecase.trimRight]. rewrite (IH Htok).
  destruct (HandleMessageUsecase.isSpace c); [discriminate Hc|].
  destruct (tok +:+ HandleMessageUsecase.trimRight rest); reflexivity.
Qed.

Lemma trimLeft_split s :
  exists pre, allSpace pre = true
              /\ s = pre +:+ HandleMessageUsecase.trimLeft s.
Proof.
  induction s as [|c s (pre & Hpre & Hs)].
  - exists "". split; reflexivity.
  - cbn [HandleMessageUsecase.trimLeft].
    destruct (HandleMessageUsecase.isSpace c) eqn:Hc.
    + exists (String c pre). split.
      * cbn [allSpace]. rewrite Hc, Hpre. reflexivity.
      * change (String c s
                = String c (pre +:+ HandleMessageUsecase.trimLeft s)).
        rewrite <- Hs. reflexivity.
    + exists "". split; reflexivity.
Qed.

Lemma trimRight_split s :
  exists post, s = HandleMessageUsecase.trimRight s +:+ post.
Proof.
  induction s as [|c s (post & Hs)].
  - exists "". reflexivity.
  - cbn [HandleMessageUsecase.trimRight].
    destruct (HandleMessageUsecase.trimRight s) as [|d t] eqn:Ht.
    + destruct (HandleMessageUsecase.isSpace c).
      * exists (String c s). reflexivity.
      * exists s. reflexivity.
    + exists post.
      change (String c s = String c (String d t +:+ post)).
      rewrite <- Hs. reflexivity.
Qed.

Lemma prefix_app p s : String.prefix p (p +:+ s) = true.
Proof.
  induction p as [|c p IH]; [destruct s; reflexivity|].
  change (String.prefix (String c p) (String c (p +:+ s)) = true).
  cbn [String.prefix].
  destruct (ascii_dec c c) as [_|Hne]; [exact IH|contradiction].
Qed.

Lemma prefix_split p : forall s,
  String.prefix p s = true -> exists rest, s = p +:+ rest.
Proof.
  induction p as [|c p IH]; intros s Hp.
  - exists s. reflexivity.
  - destruct s as [|d s]; [discriminate Hp|].
    cbn [String.prefix] in Hp.
    destruct (ascii_dec c d) as [->|_]; [|discriminate Hp].
    destruct (IH s Hp) as (rest & ->). exists rest. reflexivity.
Qed.

Lemma ToLower_split a : forall s b,
  HandleMessageUsecase.ToLower s = a +:+ b ->
  exists s1 s2,
    s = s1 +:+ s2
    /\ HandleMessageUsecase.ToLower s1 = a
    /\ HandleMessageUsecase.ToLower s2 = b.
Proof.
  induction a as [|c a IH]; intros s b Hs.
  - exists "", s. split; [reflexivity|]. split; [reflexivity|exact Hs].
  - destruct s as [|d s]; [discriminate Hs|].
    change (String (HandleMessageUsecase.toLowerAscii d)
              (HandleMessageUsecase.ToLower s)
            = String c (a +:+ b)) in Hs.
    injection Hs as Hd Hs.
    destruct (IH s b Hs) as (s1 & s2 & -> & H1 & H2).
    exists (String d s1), s2. split; [reflexivity|]. split; [|exact H2].
    cbn [HandleMessageUsecase.ToLower]. rewrite Hd, H1. reflexivity.
Qed.

(** The normalised text of a command: the token in lower case, then the
    rest. *)
Lemma normalised_command pre tok rest :
  allSpace pre = true ->
  noSpace (HandleMessageUsecase.ToLower tok) = true ->
  HandleMessageUsecase.ToLower tok <> "" ->
  HandleMessageUsecase.ToLower
    (HandleMessageUsecase.TrimSpace (pre +:+ tok +:+ rest))
  = HandleMessageUsecase.ToLower tok
    +:+ HandleMessageUsecase.ToLower (HandleMessageUsecase.trimRight rest).
Proof.
  intros Hpre Htok Hne. rewrite noSpace_ToLower in Htok.
  assert (Hne' : tok <> "") by (intros ->; apply Hne; reflexivity).
  unfold HandleMessageUsecase.TrimSpace.
  rewrite trimLeft_allSpace_app by exact Hpre.
  rewrite trimLeft_noSpace_app by assumption.
  rewrite trimRight_noSpace_app by exact Htok.
  apply ToLower_app.
Qed.

Lemma startsWithCommand_of_prefix text token :
  HandleMessageUsecase.HasPrefix
    (HandleMessageUsecase.ToLower (HandleMessageUsecase.TrimSpace text))
    token = true ->
  startsWithCommand text token.
Proof.
  unfold HandleMessageUsecase.HasPrefix. intros Hp.
  apply prefix_split in Hp as (x & Hx).
  apply ToLower_split in Hx as (tok & y & Htrim & Htok & _).
  unfold HandleMessageUsecase.TrimSpace in Htrim.
  destruct (trimRight_split (HandleMessageUsecase.trimLeft text))
    as (post & Hpost).
  destruct (trimLeft_split text) as (pre & Hpre & Htext).
  exists pre, tok, (y +:+ post). split; [exact Hpre|]. split; [exact Htok|].
  rewrite Htext at 1. rewrite Hpost at 1. rewrite Htrim.
  rewrite append_assoc. reflexivity.
Qed.

Lemma prefix_of_startsWithCommand text token :
  noSpace token = true -> token <> "" ->
  startsWithCommand text token ->
  exists x,
    HandleMessageUsecase.ToLower (HandleMessageUsecase.TrimSpace text)
    = token +:+ x.
Proof.
  intros Hns Hne (pre & tok & rest & Hpre & <- & ->).
  eexists. apply normalised_command; assumption.
Qed.

(** C8.  For every message: when the text is whitespace, then [#lapor] in
    any letter case, then anything, the router returns what the streak
    accounting operation returns for (userID, name); when it is whitespace,
    then [#leaderboard] in any letter case, then anything, it returns what
    the leaderboard operation returns; for every other text, the empty text
    and the bare words "lapor" and "leaderboard" among them, it returns the
    empty message without error and hands the repository back untouched. *)
Theorem router_dispatches_by_prefix
    (S : SliceSorter) (R : Type) (repository : ReportRepository R)
    (now : GoTime.Time) (userID name text : string) (repo : R) :
  (startsWithCommand text "#lapor" ->
   HandleMessageUsecase.Execute now userID name text repo
   = ReportActivityUsecase.Execute now userID name repo)
  /\ (startsWithCommand text "#leaderboard" ->
      HandleMessageUsecase.Execute now userID name text repo
      = GetLeaderboardUsecase.Execute now repo)
  /\ (~ startsWithCommand text "#lapor" ->
      ~ startsWithCommand text "#leaderboard" ->
      HandleMessageUsecase.Execute now userID name text repo
      = (("", None), repo))
  /\ HandleMessageUsecase.Execute now userID name "" repo = (("", None), repo)
  /\ HandleMessageUsecase.Execute now userID name "lapor" repo
     = (("", None), repo)
  /\ HandleMessageUsecase.Execute now userID name "leaderboard" repo
     = (("", None), repo).
Proof.
  split; [|split; [|split; [|repeat split]]].
  - intros Hcmd.
    apply prefix_of_startsWithCommand in Hcmd as (x & Hx);
      [|reflexivity|discriminate].
    unfold HandleMessageUsecase.Execute. rewrite Hx.
    unfold HandleMessageUsecase.HasPrefix. rewrite prefix_app. reflexivity.
  - intros Hcmd.
    apply prefix_of_startsWithCommand in Hcmd as (x & Hx);
      [|reflexivity|discriminate].
    unfold HandleMessageUsecase.Execute. rewrite Hx.
    unfold HandleMessageUsecase.HasPrefix. rewrite prefix_app. reflexivity.
  - intros Hlapor Hboard. unfold HandleMessageUsecase.Execute.
    destruct (HandleMessageUsecase.HasPrefix _ "#lapor") eqn:H1.
    { exfalso. apply Hlapor, startsWithCommand_of_prefix. exact H1. }
    destruct (HandleMessageUsecase.HasPrefix _ "#leaderboard") eqn:H2.
    { exfalso. apply Hboard, startsWithCommand_of_prefix. exact H2. }
    reflexivity.
Qed.

(** "  #LaPor hari ini " from a new member is a report; "#LEADERBOARD" asks
    for the board. *)
Lemma router_dispatches_by_prefix_witness :
  fst (@HandleMessageUsecase.Execute _ _ mergeSorter scenario.now
         "user123" "TestUser" "  #LaPor hari ini " scenario.emptyDb)
  = ("Laporan diterima, TestUser sudah berkeringat 1 hari. Lanjutkan 🔥",
     None)
  /\ @HandleMessageUsecase.Execute _ _ mergeSorter scenario.now
       "user123" "TestUser" "#LEADERBOARD" scenario.emptyDb
     = @GetLeaderboardUsecase.Execute _ _ mergeSorter scenario.now
         scenario.emptyDb.
Proof.
  destruct (router_dispatches_by_prefix mergeSorter memrepo.MemRepo _
              scenario.now "user123" "TestUser" "  #LaPor hari ini "
              scenario.emptyDb) as (Hlapor & _).
  destruct (router_dispatches_by_prefix mergeSorter memrepo.MemRepo _
              scenario.now "user123" "TestUser" "#LEADERBOARD"
              scenario.emptyDb) as (_ & Hboard & _).
  split.
  - rewrite Hlapor.
    + reflexivity.
    + exists "  ", "#LaPor", " hari ini ". repeat split.
  - apply Hboard. exists "", "#LEADERBOARD", "". repeat split.
Defined.

(* ===================================================================== *)
(** * The scenarios of the test suite *)
(* ===================================================================== *)

Example calendar_of_now :
  (GoTime.Year scenario.now, GoTime.Month scenario.now,
   GoTime.Day scenario.now, GoTime.Hour scenario.now,
   GoTime.Minute scenario.now, GoTime.Second scenario.now)
  = (2026, 2, 6, 22, 30, 45)
  /\ GoTime.Format_02_01_2006 scenario.now = "06-02-2026".
Proof. split; vm_compute; reflexivity. Qed.

Example leap_day_is_before_march :
  GoTime.civilFromDays (GoTime.daysFromCivil 2024 3 0) = (2024, 2, 29)
  /\ GoTime.civilFromDays (GoTime.daysFromCivil 2026 3 0) = (2026, 2, 28)
  /\ GoTime.civilFromDays (GoTime.daysFromCivil 2026 1 0) = (2025, 12, 31).
Proof. repeat split; vm_compute; reflexivity. Qed.

(** [TestStreak_MissedDay_StreakResets] *)
Example missed_day_streak_resets :
  memrepo.user_reports
    (snd (ReportActivityUsecase.Execute scenario.now "user1" "Charlie"
            (scenario.dbWith "user1" scenario.charlie))) !! "user1"
  = Some (memrepo.mkRow "Charlie" 1 26 scenario.now).
Proof. vm_compute. reflexivity. Qed.

(** [TestStreak_LongGap_StreakResets] *)
Example long_gap_streak_resets :
  memrepo.user_reports
    (snd (ReportActivityUsecase.Execute scenario.now "user1" "Eve"
            (scenario.dbWith "user1" scenario.eve))) !! "user1"
  = Some (memrepo.mkRow "Eve" 1 37 scenario.now).
Proof. vm_compute. reflexivity. Qed.

(** [TestReportActivityUsecase_Execute]: a first report, the next day's, and
    one after a missed day. *)
Example three_reports_in_a_row :
  let day1 := scenario.daysAgo 3 in
  let day2 := scenario.daysAgo 2 in
  let day4 := scenario.now in
  let db1 := snd (ReportActivityUsecase.Execute day1 "user1" "User One"
                    scenario.emptyDb) in
  let db2 := snd (ReportActivityUsecase.Execute day2 "user1" "User One" db1) in
  let db4 := snd (ReportActivityUsecase.Execute day4 "user1" "User One" db2) in
  memrepo.user_reports db1 !! "user1"
  = Some (memrepo.mkRow "User One" 1 1 day1)
  /\ memrepo.user_reports db2 !! "user1"
     = Some (memrepo.mkRow "User One" 2 2 day2)
  /\ memrepo.user_reports db4 !! "user1"
     = Some (memrepo.mkRow "User One" 1 3 day4).
Proof. repeat split; vm_compute; reflexivity. Qed.

(** [TestHandleMessage_WhitespaceHandling] and
    [TestHandleMessage_UnknownCommand_ReturnsEmpty] *)
Example router_whitespace_and_unknown :
  let tab := String (ascii_of_nat 9) EmptyString in
  let route text :=
    fst (@HandleMessageUsecase.Execute _ _ mergeSorter scenario.now
           "user1" "User" text scenario.emptyDb) in
  let accepted :=
    ("Laporan diterima, User sudah berkeringat 1 hari. Lanjutkan 🔥", None) in
  route (tab +:+ "#lapor") = accepted
  /\ route (nl +:+ "#lapor" +:+ nl) = accepted
  /\ route "  #lapor  " = accepted
  /\ route "#LAPOR" = accepted
  /\ route "hello" = ("", None)
  /\ route "#invalid" = ("", None)
  /\ route "#help" = ("", None).
Proof. repeat split; vm_compute; reflexivity. Qed.

(* ===================================================================== *)
(** * Further properties of the streak accounting operation *)
(* ===================================================================== *)

Lemma unix_midnight_dayStart t :
  GoTime.unix (GoTime.midnight t) = dayStart t.
Proof. apply unix_midnight. Qed.

Lemma unix_yesterday_dayStart t :
  GoTime.unix (GoTime.AddDate (GoTime.midnight t) 0 0 (-1))
  = dayStart t - 86400.
Proof. rewrite unix_yesterday. unfold dayStart. lia. Qed.

(** Whatever the locations, the transition is decided by the instants at
    which the two calendar days start. *)
Lemma transition_dayStart now userID name r :
  ReportActivityUsecase.transition now userID name (Some r)
  = if dayStart (LastReportDate r) =? dayStart now
    then inl (ReportActivityUsecase.rejectedMessage name)
    else inr {| UserID := UserID r;
                Name := name;
                Streak :=
                  if dayStart (LastReportDate r) =? dayStart now - 86400
                  then GoInt.incr (Streak r) else 1;
                ActivityCount := GoInt.incr (ActivityCount r);
                LastReportDate := now |}.
Proof.
  unfold ReportActivityUsecase.transition, GoTime.Equal.
  rewrite !unix_midnight_dayStart, unix_yesterday_dayStart. reflexivity.
Qed.



(** X2.  Whatever the stored timestamps: the operation on the in-memory
    repository returns no error and leaves the rows of all other members as
    they were; it either rejects, with the rejection message and every row
    unchanged (only for a member who has a row), or accepts, and then the
    member's row carries the given name and [now], the message carries the
    stored activity count, a new member starts at 1 and 1, and an existing
    member's count is incremented while the streak is the incremented one
    or 1. *)
Theorem report_outcomes
    (now : GoTime.Time) (userID name : string) (db : memrepo.MemRepo) :
  let result := ReportActivityUsecase.Execute now userID name db in
  snd (fst result) = None
  /\ (forall other, other <> userID ->
        memrepo.user_reports (snd result) !! other
        = memrepo.user_reports db !! other)
  /\ ((fst (fst result) = ReportActivityUsecase.rejectedMessage name
       /\ memrepo.user_reports (snd result) = memrepo.user_reports db
       /\ is_Some (memrepo.user_reports db !! userID))
      \/ (exists row',
            memrepo.user_reports (snd result) !! userID = Some row'
            /\ fst (fst result)
               = ReportActivityUsecase.acceptedMessage name
                   (memrepo.activity_count row')
            /\ memrepo.name row' = name
            /\ memrepo.last_report_date row' = now
            /\ match memrepo.user_reports db !! userID with
               | None =>
                   memrepo.streak row' = 1 /\ memrepo.activity_count row' = 1
               | Some row =>
                   memrepo.activity_count row'
                   = GoInt.incr (memrepo.activity_count row)
                   /\ (memrepo.streak row' = GoInt.incr (memrepo.streak row)
                       \/ memrepo.streak row' = 1)
               end)).
Proof.
  cbn zeta. rewrite Execute_memrepo.
  destruct (memrepo.user_reports db !! userID) as [row|] eqn:Hrow;
    cbn [fmap option_fmap option_map].
  - rewrite transition_dayStart. cbn [LastReportDate memrepo.toReport].
    destruct (dayStart (memrepo.last_report_date row) =? dayStart now).
    + cbn. split; [reflexivity|]. split; [reflexivity|]. left.
      split; [reflexivity|]. split; [reflexivity|]. eexists; reflexivity.
    + cbn. split; [reflexivity|]. split.
      { intros other Hne. apply lookup_insert_ne. congruence. }
      right. eexists. split; [apply lookup_insert_eq|]. cbn.
      repeat split.
      destruct (dayStart (memrepo.last_report_date row)
                =? dayStart now - 86400); [left|right]; reflexivity.
  - cbn. split; [reflexivity|]. split.
    { intros other Hne. apply lookup_insert_ne. congruence. }
    right. eexists. split; [apply lookup_insert_eq|]. cbn. repeat split.
Qed.

(** What [Execute] leaves under the member's key, in terms of the day-start
    instants. *)
Lemma Execute_row now userID name (db : memrepo.MemRepo) :
  memrepo.user_reports
    (snd (ReportActivityUsecase.Execute now userID name db)) !! userID
  = match memrepo.user_reports db !! userID with
    | None => Some (memrepo.mkRow name 1 1 now)
    | Some row =>
        if dayStart (memrepo.last_report_date row) =? dayStart now
        then Some row
        else Some (memrepo.mkRow name
                     (if dayStart (memrepo.last_report_date row)
                         =? dayStart now - 86400
                      then GoInt.incr (memrepo.streak row) else 1)
                     (GoInt.incr (memrepo.activity_count row)) now)
    end.
Proof.
  rewrite Execute_memrepo.
  destruct (memrepo.user_reports db !! userID) as [row|] eqn:Hrow;
    cbn [fmap option_fmap option_map].
  - rewrite transition_dayStart. cbn [LastReportDate memrepo.toReport].
    destruct (dayStart (memrepo.last_report_date row) =? dayStart now).
    + cbn. exact Hrow.
    + cbn. apply lookup_insert_eq.
  - cbn. apply lookup_insert_eq.
Qed.

(** X3.  A second report at a time in the same location and on the same
    calendar day as the one just handled is always rejected, whatever the
    repository held before and whether the first report was accepted or
    not: only the read reaches the repository. *)
Theorem second_report_same_day_rejected
    (now now2 : GoTime.Time) (userID name name2 : string)
    (db : memrepo.MemRepo) :
  GoTime.location now2 = GoTime.location now ->
  GoTime.calendarDay now2 = GoTime.calendarDay now ->
  let db1 := snd (ReportActivityUsecase.Execute now userID name db) in
  ReportActivityUsecase.Execute now2 userID name2 db1
  = ((ReportActivityUsecase.rejectedMessage name2, None),
     memrepo.record (memrepo.CallGetReport userID) db1).
Proof.
  intros Hloc Hday db1.
  assert (Hstart : dayStart now2 = dayStart now)
    by (unfold dayStart; rewrite Hloc, Hday; reflexivity).
  pose proof (Execute_row now userID name db) as Hrow1. fold db1 in Hrow1.
  rewrite (Execute_memrepo now2 userID name2 db1).
  assert (Hex : exists row1,
             memrepo.user_reports db1 !! userID = Some row1
             /\ dayStart (memrepo.last_report_date row1) = dayStart now).
  { rewrite Hrow1.
    destruct (memrepo.user_reports db !! userID) as [row|].
    - destruct (Z.eqb_spec (dayStart (memrepo.last_report_date row))
                  (dayStart now)) as [Heq|_].
      + exists row. split; [reflexivity|exact Heq].
      + eexists. split; [reflexivity|reflexivity].
    - eexists. split; [reflexivity|reflexivity]. }
  destruct Hex as (row1 & Hrow & Hlast).
  rewrite Hrow. cbn [fmap option_fmap option_map].
  rewrite transition_dayStart. cbn [LastReportDate memrepo.toReport].
  rewrite Hlast, Hstart, Z.eqb_refl. reflexivity.
Qed.

(** Alice's first report, then a second one three hours later. *)
Lemma second_report_same_day_rejected_witness :
  fst (ReportActivityUsecase.Execute
         (GoTime.mkTime 1770391845 25200) "user1" "Alice"
         (snd (ReportActivityUsecase.Execute
                 (GoTime.mkTime 1770381045 25200) "user1" "Alice"
                 scenario.emptyDb)))
  = ("Alice sudah laporan hari ini, ayo jangan curang! 😉", None).
Proof.
  rewrite (second_report_same_day_rejected
             (GoTime.mkTime 1770381045 25200)
             (GoTime.mkTime 1770391845 25200)
             "user1" "Alice" "Alice" scenario.emptyDb eq_refl eq_refl).
  reflexivity.
Defined.

Lemma last_cons {A : Type} (l : list A) : forall x d,
  List.last (x :: l) d = List.last l x.
Proof.
  induction l as [|y l IH]; intros x d; [reflexivity|].
  change (List.last (x :: y :: l) d) with (List.last (y :: l) d).
  rewrite !IH. reflexivity.
Qed.

Lemma reportEach_consecutive name userID : forall rest now db row,
  memrepo.user_reports db !! userID = Some row ->
  consecutiveDays (memrepo.last_report_date row) (now :: rest) ->
  GoInt.MinInt <= memrepo.streak row ->
  GoInt.MinInt <= memrepo.activity_count row ->
  memrepo.streak row + Z.of_nat (length (now :: rest)) <= GoInt.MaxInt ->
  memrepo.activity_count row + Z.of_nat (length (now :: rest))
    <= GoInt.MaxInt ->
  memrepo.user_reports (reportEach (now :: rest) userID name db) !! userID
  = Some (memrepo.mkRow name
            (memrepo.streak row + Z.of_nat (length (now :: rest)))
            (memrepo.activity_count row + Z.of_nat (length (now :: rest)))
            (List.last rest now)).
Proof.
  induction rest as [|next rest IH];
    intros now db row Hrow (Hloc & Hday & Hrest) Hs Hc Hsmax Hcmax.
  - cbn [reportEach length List.last] in *.
    rewrite Execute_row, Hrow.
    assert (Hstart : dayStart (memrepo.last_report_date row)
                     = dayStart now - 86400)
      by (unfold dayStart; rewrite Hloc, Hday; lia).
    rewrite Hstart.
    destruct (Z.eqb_spec (dayStart now - 86400) (dayStart now)); [lia|].
    rewrite Z.eqb_refl, !incr_small by lia. reflexivity.
  - change (reportEach (now :: next :: rest) userID name db)
      with (reportEach (next :: rest) userID name
              (snd (ReportActivityUsecase.Execute now userID name db))).
    assert (Hrow1 :
      memrepo.user_reports
        (snd (ReportActivityUsecase.Execute now userID name db)) !! userID
      = Some (memrepo.mkRow name (memrepo.streak row + 1)
                (memrepo.activity_count row + 1) now)).
    { rewrite Execute_row, Hrow.
      assert (Hstart : dayStart (memrepo.last_report_date row)
                       = dayStart now - 86400)
        by (unfold dayStart; rewrite Hloc, Hday; lia).
      rewrite Hstart.
      destruct (Z.eqb_spec (dayStart now - 86400) (dayStart now)); [lia|].
      cbn [length] in Hsmax, Hcmax.
      rewrite Z.eqb_refl, !incr_small by lia. reflexivity. }
    cbn [length] in Hsmax, Hcmax.
    rewrite (IH next _ _ Hrow1) by (cbn; first [exact Hrest | lia]).
    cbn [memrepo.streak memrepo.activity_count length].
    f_equal. f_equal; [lia|lia|]. symmetry. apply last_cons.
Qed.

(** X4.  A member without a record who reports on consecutive calendar days
    (all times in one location, each on the day after the one before) ends
    with streak and activity count both equal to the number of reports, the
    last time stored, as long as that number fits an [int]. *)
Theorem daily_reports_count_the_days
    (first : GoTime.Time) (rest : list GoTime.Time)
    (userID name : string) (db : memrepo.MemRepo) :
  memrepo.user_reports db !! userID = None ->
  consecutiveDays first rest ->
  Z.of_nat (length (first :: rest)) <= GoInt.MaxInt ->
  memrepo.user_reports (reportEach (first :: rest) userID name db) !! userID
  = Some (memrepo.mkRow name
            (Z.of_nat (length (first :: rest)))
            (Z.of_nat (length (first :: rest)))
            (List.last rest first)).
Proof.
  intros Hnone Hcons Hlen.
  change (reportEach (first :: rest) userID name db)
    with (reportEach rest userID name
            (snd (ReportActivityUsecase.Execute first userID name db))).
  assert (Hrow1 :
    memrepo.user_reports
      (snd (ReportActivityUsecase.Execute first userID name db)) !! userID
    = Some (memrepo.mkRow name 1 1 first))
    by (rewrite Execute_row, Hnone; reflexivity).
  destruct rest as [|next rest]; [exact Hrow1|].
  cbn [length] in Hlen.
  rewrite (reportEach_consecutive name userID rest next _ _ Hrow1)
    by (cbn [memrepo.last_report_date memrepo.streak memrepo.activity_count
             length];
        first [exact Hcons | unfold GoInt.MinInt; lia | lia]).
  cbn [memrepo.streak memrepo.activity_count length].
  f_equal. f_equal; [lia|lia|]. symmetry. apply last_cons.
Qed.

(** Four days in a row, from 3 to 6 February. *)
Lemma daily_reports_count_the_days_witness :
  memrepo.user_reports
    (reportEach [scenario.daysAgo 3; scenario.daysAgo 2; scenario.daysAgo 1;
                 scenario.now] "user1" "Alice" scenario.emptyDb) !! "user1"
  = Some (memrepo.mkRow "Alice" 4 4 scenario.now).
Proof.
  rewrite (daily_reports_count_the_days (scenario.daysAgo 3)
             [scenario.daysAgo 2; scenario.daysAgo 1; scenario.now]
             "user1" "Alice" scenario.emptyDb eq_refl
             ltac:(vm_compute; tauto) ltac:(vm_compute; discriminate)).
  reflexivity.
Defined.

(* ===================================================================== *)
(** * Further properties of the leaderboard *)
(* ===================================================================== *)

Lemma isActive_dayStart now r :
  GetLeaderboardUsecase.isActive now r
  = (dayStart (LastReportDate r) =? dayStart now)
    || (dayStart (LastReportDate r) =? dayStart now - 86400).
Proof.
  unfold GetLeaderboardUsecase.isActive, GoTime.Equal.
  rewrite !unix_midnight_dayStart, unix_yesterday_dayStart. reflexivity.
Qed.



(** X6.  Whatever the repository is, the leaderboard operation only reads:
    it ends in the state [GetAllReports] left; and when that read returns an
    error, the operation returns the empty text with that very error. *)
Theorem leaderboard_only_reads
    (S : SliceSorter) (R : Type) (repository : ReportRepository R)
    (now : GoTime.Time) (repo : R) :
  snd (GetLeaderboardUsecase.Execute now repo) = snd (GetAllReports repo)
  /\ (forall reports e repo1,
        GetAllReports repo = ((reports, Some e), repo1) ->
        GetLeaderboardUsecase.Execute now repo = (("", Some e), repo1))
  /\ (forall reports repo1,
        GetAllReports repo = ((reports, None), repo1) ->
        GetLeaderboardUsecase.Execute now repo
        = ((GetLeaderboardUsecase.render now reports, None), repo1)).
Proof.
  unfold GetLeaderboardUsecase.Execute.
  destruct (GetAllReports repo) as [[reports [e|]] repo1]; cbn [snd].
  - split; [reflexivity|]. split.
    + intros reports' e' repo1' Heq. injection Heq as <- <- <-. reflexivity.
    + intros reports' repo1' Heq. discriminate Heq.
  - split; [reflexivity|]. split.
    + intros reports' e' repo1' Heq. discriminate Heq.
    + intros reports' repo1' Heq. injection Heq as <- <-. reflexivity.
Qed.

(** X7.  The day counter of the header is never negative: it is 0 or an
    activity count that is the largest of all; a board on which no activity
    count is positive, an empty one included, shows day 0. *)
Theorem leaderboard_day_counter_is_clamped (reports : list Report) :
  0 <= GetLeaderboardUsecase.maxDay reports
  /\ (forall r, r ∈ reports ->
        ActivityCount r <= GetLeaderboardUsecase.maxDay reports)
  /\ (GetLeaderboardUsecase.maxDay reports = 0
      \/ exists r, r ∈ reports
                   /\ ActivityCount r = GetLeaderboardUsecase.maxDay reports)
  /\ ((forall r, r ∈ reports -> ActivityCount r <= 0) ->
      GetLeaderboardUsecase.maxDay reports = 0).
Proof.
  pose proof (maxDay_fold_spec reports 0) as Hspec.
  rewrite <- maxDay_fold in Hspec. cbn zeta in Hspec.
  destruct Hspec as (Hle & Hub & Hwit).
  split; [exact Hle|]. split; [exact Hub|]. split; [exact Hwit|].
  intros Hnonpos. destruct Hwit as [Hzero|(r & Hr & Heq)]; [exact Hzero|].
  pose proof (Hnonpos r Hr). lia.
Qed.

(** X8.  After the streak accounting operation has handled a member's
    report, accepted or rejected, a leaderboard taken at the same [now]
    lists that member in the active partition, whatever the zone of the
    timestamp that was stored before. *)
Theorem reporter_is_active_on_leaderboard
    (S : SliceSorter) (laws : SliceSorterLaws S)
    (now : GoTime.Time) (userID name : string) (db : memrepo.MemRepo) :
  let db1 := snd (ReportActivityUsecase.Execute now userID name db) in
  exists row,
    memrepo.user_reports db1 !! userID = Some row
    /\ memrepo.toReport userID row
       ∈ fst (GetLeaderboardUsecase.ranked now (fst (fst (GetAllReports db1)))).
Proof.
  intros db1.
  pose proof (Execute_row now userID name db) as Hrow1. fold db1 in Hrow1.
  assert (Hex : exists row1,
             memrepo.user_reports db1 !! userID = Some row1
             /\ dayStart (memrepo.last_report_date row1) = dayStart now).
  { rewrite Hrow1.
    destruct (memrepo.user_reports db !! userID) as [row|].
    - destruct (Z.eqb_spec (dayStart (memrepo.last_report_date row))
                  (dayStart now)) as [Heq|_].
      + exists row. split; [reflexivity|exact Heq].
      + eexists. split; [reflexivity|reflexivity].
    - eexists. split; [reflexivity|reflexivity]. }
  destruct Hex as (row1 & Hrow & Hlast).
  exists row1. split; [exact Hrow|].
  apply elem_of_ranked_keep; [exact laws|]. split.
  - apply elem_of_getAllReports. exists userID, row1.
    split; [exact Hrow|reflexivity].
  - rewrite isActive_dayStart. cbn [LastReportDate memrepo.toReport].
    rewrite Hlast, Z.eqb_refl. reflexivity.
Qed.

(** Diana, whose row is stamped in UTC, reports at UTC+7 and is active. *)
Lemma reporter_is_active_on_leaderboard_witness :
  exists row,
    memrepo.user_reports
      (snd (ReportActivityUsecase.Execute scenario.now "user1" "Diana"
              (scenario.dbWith "user1" scenario.dianaUTC))) !! "user1"
    = Some row
    /\ memrepo.toReport "user1" row
       ∈ fst (@GetLeaderboardUsecase.ranked mergeSorter scenario.now
                (fst (fst (GetAllReports
                   (snd (ReportActivityUsecase.Execute scenario.now "user1"
                           "Diana"
                           (scenario.dbWith "user1" scenario.dianaUTC))))))).
Proof.
  exact (reporter_is_active_on_leaderboard mergeSorter mergeSorter_laws
           scenario.now "user1" "Diana"
           (scenario.dbWith "user1" scenario.dianaUTC)).
Defined.

(* ===================================================================== *)
(** * Properties of the repository *)
(* ===================================================================== *)



Lemma List_filter_Permutation {A : Type} (f : A -> bool) (l1 l2 : list A) :
  l1 ≡ₚ l2 -> List.filter f l1 ≡ₚ List.filter f l2.
Proof.
  induction 1 as [|x l1 l2 _ IH|x y l|l1 l2 l3 _ IH1 _ IH2].
  - reflexivity.
  - cbn [List.filter]. destruct (f x); [constructor|]; exact IH.
  - cbn [List.filter]. destruct (f x), (f y); try reflexivity.
    apply perm_swap.
  - etransitivity; eassumption.
Qed.

Section OrderIndependence.

Context (S : SliceSorter) (laws : SliceSorterLaws S).

(** Two listings of the same reports with pairwise distinct streaks sort to
    the same ranking. *)
Lemma sort_Slice_unique (l1 l2 : list Report) :
  l1 ≡ₚ l2 ->
  (forall a b, a ∈ l1 -> b ∈ l1 -> Streak a = Streak b -> a = b) ->
  sort_Slice Report GetLeaderboardUsecase.byStreakDesc l1
  = sort_Slice Report GetLeaderboardUsecase.byStreakDesc l2.
Proof.
  intros Hperm Hdistinct.
  pose proof (sort_Slice_Permutation Report
                GetLeaderboardUsecase.byStreakDesc l1) as Hp1.
  pose proof (sort_Slice_Permutation Report
                GetLeaderboardUsecase.byStreakDesc l2) as Hp2.
  eapply (StronglySorted_unique_strong (fun a b => Streak b <= Streak a)).
  - intros x1 x2 Hx1 Hx2 H12 H21. apply Hdistinct.
    + rewrite <- Hp1. exact Hx1.
    + rewrite Hperm, <- Hp2. exact Hx2.
    + lia.
  - apply sort_Slice_streakDescending. exact laws.
  - apply sort_Slice_streakDescending. exact laws.
  - rewrite Hp1, Hp2. exact Hperm.
Qed.

Lemma maxDay_Permutation (l1 l2 : list Report) :
  l1 ≡ₚ l2 ->
  GetLeaderboardUsecase.maxDay l1 = GetLeaderboardUsecase.maxDay l2.
Proof.
  intros Hperm.
  pose proof (maxDay_fold_spec l1 0) as H1.
  pose proof (maxDay_fold_spec l2 0) as H2.
  rewrite <- maxDay_fold in H1, H2. cbn zeta in H1, H2.
  destruct H1 as (Hle1 & Hub1 & Hwit1), H2 as (Hle2 & Hub2 & Hwit2).
  apply Z.le_antisymm.
  - destruct Hwit1 as [->|(r & Hr & <-)]; [exact Hle2|].
    apply Hub2. rewrite <- Hperm. exact Hr.
  - destruct Hwit2 as [->|(r & Hr & <-)]; [exact Hle1|].
    apply Hub1. rewrite Hperm. exact Hr.
Qed.

(** X11.  When no two reports have the same streak, the text of the
    leaderboard does not depend on the order in which the repository lists
    the reports. *)
Theorem leaderboard_independent_of_listing_order
    (now : GoTime.Time) (reports1 reports2 : list Report) :
  reports1 ≡ₚ reports2 ->
  (forall a b, a ∈ reports1 -> b ∈ reports1 -> Streak a = Streak b -> a = b) ->
  GetLeaderboardUsecase.render now reports1
  = GetLeaderboardUsecase.render now reports2.
Proof.
  intros Hperm Hdistinct.
  assert (Hranked : GetLeaderboardUsecase.ranked now reports1
                    = GetLeaderboardUsecase.ranked now reports2).
  { rewrite !ranked_partition, !partition_filter. cbn [fst snd].
    f_equal; apply sort_Slice_unique.
    - apply List_filter_Permutation. exact Hperm.
    - intros a b Ha Hb. apply Hdistinct.
      + apply list_elem_of_In, filter_In in Ha as [Ha _].
        apply list_elem_of_In. exact Ha.
      + apply list_elem_of_In, filter_In in Hb as [Hb _].
        apply list_elem_of_In. exact Hb.
    - apply List_filter_Permutation. exact Hperm.
    - intros a b Ha Hb. apply Hdistinct.
      + apply list_elem_of_In, filter_In in Ha as [Ha _].
        apply list_elem_of_In. exact Ha.
      + apply list_elem_of_In, filter_In in Hb as [Hb _].
        apply list_elem_of_In. exact Hb. }
  unfold GetLeaderboardUsecase.render.
  rewrite Hranked, (maxDay_Permutation reports1 reports2 Hperm).
  reflexivity.
Qed.

End OrderIndependence.

(** The board of the test suite listed in another order renders the same. *)
Lemma leaderboard_independent_of_listing_order_witness :
  @GetLeaderboardUsecase.render mergeSorter scenario.now scenario.members
  = @GetLeaderboardUsecase.render mergeSorter scenario.now
      [ memrepo.toReport "user1" scenario.high;
        memrepo.toReport "user3" scenario.low;
        memrepo.toReport "user2" scenario.medium ].
Proof.
  apply (leaderboard_independent_of_listing_order mergeSorter
           mergeSorter_laws scenario.now).
  - unfold scenario.members.
    rewrite (Permutation_cons_append
               [memrepo.toReport "user3" scenario.low;
                memrepo.toReport "user1" scenario.high]
               (memrepo.toReport "user2" scenario.medium)).
    cbn [app]. apply perm_swap.
  - intros a b Ha Hb. unfold scenario.members in Ha, Hb.
    repeat (apply elem_of_cons in Ha as [->|Ha]);
      repeat (apply elem_of_cons in Hb as [->|Hb]);
      try (inversion Ha; fail); try (inversion Hb; fail);
      try (intros _; reflexivity);
      vm_compute; discriminate.
Defined.

(* ===================================================================== *)
(** * Properties of the configuration *)
(* ===================================================================== *)

Lemma parseDigits_of_uint_acc (d : Decimal.uint) : forall (p : positive),
  strconv.parseDigits (NilEmpty.string_of_uint d) (Z.pos p)
  = Some (Z.pos (Pos.of_uint_acc d p)).
Proof.
  induction d; intros p; cbn [NilEmpty.string_of_uint strconv.parseDigits
                              Pos.of_uint_acc];
    [reflexivity|..];
    match goal with
    | |- context [strconv.digitValue ?c] =>
        let v := eval vm_compute in (strconv.digitValue c) in
        change (strconv.digitValue c) with v
    end;
    cbn iota beta;
    match goal with
    | |- strconv.parseDigits _ ?n = Some (Z.pos (Pos.of_uint_acc _ ?q)) =>
        replace n with (Z.pos q) by lia
    end;
    apply IHd.
Qed.

Lemma parseDigits_of_uint (d : Decimal.uint) :
  strconv.parseDigits (NilEmpty.string_of_uint d) 0
  = Some (Z.of_N (Pos.of_uint d)).
Proof.
  induction d; cbn [NilEmpty.string_of_uint strconv.parseDigits Pos.of_uint];
    [reflexivity|..];
    match goal with
    | |- context [strconv.digitValue ?c] =>
        let v := eval vm_compute in (strconv.digitValue c) in
        change (strconv.digitValue c) with v
    end;
    cbn iota beta;
    [exact IHd|..];
    match goal with
    | |- strconv.parseDigits _ ?n = Some (Z.of_N (N.pos (Pos.of_uint_acc _ ?q))) =>
        change n with (Z.pos q)
    end;
    apply parseDigits_of_uint_acc.
Qed.

Lemma string_of_uint_nonempty (d : Decimal.uint) :
  d <> Decimal.Nil ->
  exists c s, NilZero.string_of_uint d = String c s
              /\ NilEmpty.string_of_uint d = String c s
              /\ Ascii.eqb c "-" = false /\ Ascii.eqb c "+" = false.
Proof.
  destruct d; [contradiction|..]; intros _;
    eexists _, _; repeat split; reflexivity.
Qed.

Lemma parse_to_uint (p : positive) :
  strconv.parseDigits (NilEmpty.string_of_uint (Pos.to_uint p)) 0
  = Some (Z.pos p).
Proof.
  rewrite parseDigits_of_uint, DecimalPos.Unsigned.of_to. reflexivity.
Qed.

(** [Atoi] reads back what [Itoa] writes. *)
Lemma Atoi_itoa (z : Z) :
  GoInt.inRange z -> strconv.Atoi (GoInt.itoa z) = Some z.
Proof.
  intros Hz. unfold GoInt.itoa.
  assert (Hrange : (GoInt.MinInt <=? z) && (z <=? GoInt.MaxInt) = true).
  { unfold GoInt.inRange in Hz.
    apply andb_true_intro. rewrite !Z.leb_le. exact Hz. }
  destruct z as [|p|p]; [reflexivity| |].
  - cbn [Z.to_int NilZero.string_of_int].
    destruct (string_of_uint_nonempty (Pos.to_uint p)
                (DecimalPos.Unsigned.to_uint_nonnil p)) as (c & s & H0 & He & Hm & Hp).
    pose proof (parse_to_uint p) as Hparse. rewrite He in Hparse.
    rewrite H0. unfold strconv.Atoi. rewrite Hm, Hp. cbn [orb].
    rewrite Hparse. cbn zeta iota beta. rewrite Hrange. reflexivity.
  - cbn [Z.to_int NilZero.string_of_int].
    destruct (string_of_uint_nonempty (Pos.to_uint p)
                (DecimalPos.Unsigned.to_uint_nonnil p)) as (c & s & H0 & He & Hm & Hp).
    pose proof (parse_to_uint p) as Hparse. rewrite He in Hparse.
    rewrite H0. unfold strconv.Atoi.
    change (Ascii.eqb "-" "-") with true. cbn [orb].
    rewrite Hparse. cbn zeta iota beta.
    change (- Z.pos p) with (Z.neg p). rewrite Hrange. reflexivity.
Qed.

Lemma itoa_nonempty (z : Z) : String.eqb (GoInt.itoa z) "" = false.
Proof.
  unfold GoInt.itoa. destruct z as [|p|p]; [reflexivity| |].
  - cbn [Z.to_int NilZero.string_of_int].
    destruct (string_of_uint_nonempty (Pos.to_uint p)
                (DecimalPos.Unsigned.to_uint_nonnil p)) as (c & s & -> & _).
    reflexivity.
  - reflexivity.
Qed.

Lemma parseDigits_nondigit c post : forall pre n,
  strconv.digitValue c = None ->
  strconv.parseDigits (pre +:+ String c post) n = None.
Proof.
  induction pre as [|a pre IH]; intros n Hc.
  - change (strconv.parseDigits (String c post) n = None).
    cbn [strconv.parseDigits]. rewrite Hc. reflexivity.
  - change (strconv.parseDigits (String a (pre +:+ String c post)) n = None).
    cbn [strconv.parseDigits].
    destruct (strconv.digitValue a); [apply IH; exact Hc|reflexivity].
Qed.

Lemma Atoi_inRange s i : strconv.Atoi s = Some i -> GoInt.inRange i.
Proof.
  unfold strconv.Atoi. destruct s as [|c s]; [discriminate|].
  cbn zeta.
  destruct (if Ascii.eqb c "-" || Ascii.eqb c "+" then s else String c s);
    [discriminate|].
  destruct (strconv.parseDigits _ 0) as [n|]; [|discriminate].
  destruct (andb _ _) eqn:Hrange; [|discriminate].
  intros [= <-]. apply andb_prop in Hrange as [Hlo Hhi].
  apply Z.leb_le in Hlo, Hhi. split; assumption.
Qed.

Lemma Atoi_nondigit pre c post :
  strconv.digitValue c = None ->
  pre <> "" \/ (Ascii.eqb c "-" = false /\ Ascii.eqb c "+" = false) ->
  strconv.Atoi (pre +:+ String c post) = None.
Proof.
  intros Hc Hpos. unfold strconv.Atoi.
  destruct pre as [|a pre].
  - destruct Hpos as [Hne|[Hm Hp]]; [contradiction|].
    change ("" +:+ String c post) with (String c post).
    cbv beta iota zeta. rewrite Hm, Hp. cbn [orb].
    pose proof (parseDigits_nondigit c post "" 0 Hc) as Hparse.
    change ("" +:+ String c post) with (String c post) in Hparse.
    rewrite Hparse. reflexivity.
  - change (String a pre +:+ String c post)
      with (String a (pre +:+ String c post)).
    cbv beta iota zeta.
    destruct (Ascii.eqb a "-" || Ascii.eqb a "+").
    + rewrite (parseDigits_nondigit c post pre 0 Hc).
      destruct (pre +:+ String c post); reflexivity.
    + pose proof (parseDigits_nondigit c post (String a pre) 0 Hc)
        as Hparse.
      change (String a pre +:+ String c post)
        with (String a (pre +:+ String c post)) in Hparse.
      rewrite Hparse. reflexivity.
Qed.

Lemma Getenv_Some (env : config.Environ) key v :
  env !! key = Some v -> config.Getenv env key = v.
Proof. unfold config.Getenv. intros ->. reflexivity. Qed.

Lemma Getenv_None (env : config.Environ) key :
  env !! key = None -> config.Getenv env key = "".
Proof. unfold config.Getenv. intros ->. reflexivity. Qed.

(** X12.  An integer setting is read back exactly: when the variable holds
    the decimal text of an [int], as [strconv.Itoa] writes it, [getenvInt]
    returns that [int], whatever the fallback. *)
Theorem getenvInt_reads_back
    (env : config.Environ) (key : string) (fallback n : Z) :
  GoInt.inRange n ->
  env !! key = Some (GoInt.itoa n) ->
  config.getenvInt env key fallback = n.
Proof.
  intros Hn Hkey. unfold config.getenvInt.
  rewrite (Getenv_Some env key _ Hkey). cbv zeta.
  rewrite itoa_nonempty. cbn [negb].
  rewrite Atoi_itoa by exact Hn. reflexivity.
Qed.

Lemma getenvInt_reads_back_witness :
  config.getenvInt {[ "REPLY_DELAY_MAX_MS" := "-1500" ]}
    "REPLY_DELAY_MAX_MS" 0 = -1500.
Proof.
  apply (getenvInt_reads_back {[ "REPLY_DELAY_MAX_MS" := "-1500" ]}
           "REPLY_DELAY_MAX_MS" 0 (-1500)).
  - unfold GoInt.inRange. vm_compute. split; discriminate.
  - reflexivity.
Defined.

Lemma getenvInt_inRange (env : config.Environ) (key : string) (fallback : Z) :
  GoInt.inRange fallback -> GoInt.inRange (config.getenvInt env key fallback).
Proof.
  intros Hfb. unfold config.getenvInt. cbv zeta.
  destruct (negb _); [|exact Hfb].
  destruct (strconv.Atoi _) as [i|] eqn:Hi; [|exact Hfb].
  eapply Atoi_inRange. exact Hi.
Qed.

(** X13.  [getenvInt] never fails and never leaves the range of [int]: a
    variable that is unset or empty gives the fallback; so does any text
    with a character that is not a decimal digit, a single leading sign
    apart; and the result is within the range of [int] whenever the
    fallback is. *)
Theorem getenvInt_falls_back
    (env : config.Environ) (key : string) (fallback : Z) :
  (env !! key = None -> config.getenvInt env key fallback = fallback)
  /\ (env !! key = Some "" -> config.getenvInt env key fallback = fallback)
  /\ (forall pre c post,
        env !! key = Some (pre +:+ String c post) ->
        strconv.digitValue c = None ->
        pre <> "" \/ (c <> "-"%char /\ c <> "+"%char) ->
        config.getenvInt env key fallback = fallback)
  /\ (GoInt.inRange fallback ->
      GoInt.inRange (config.getenvInt env key fallback)).
Proof.
  unfold config.getenvInt.
  split; [|split; [|split]].
  - intros H. rewrite (Getenv_None env key H). reflexivity.
  - intros H. rewrite (Getenv_Some env key _ H). reflexivity.
  - intros pre c post H Hc Hpos. rewrite (Getenv_Some env key _ H). cbv zeta.
    rewrite Atoi_nondigit; [destruct (negb _); reflexivity|exact Hc|].
    destruct Hpos as [Hne|[Hm Hp]]; [left; exact Hne|right].
    split; apply Ascii.eqb_neq; assumption.
  - apply getenvInt_inRange.
Qed.

Lemma Getenv_empty_is_unset (env : config.Environ) (k key : string) :
  config.Getenv (<[k := ""]> env) key = config.Getenv (delete k env) key.
Proof.
  unfold config.Getenv. destruct (decide (k = key)) as [->|Hne].
  - rewrite lookup_insert_eq, lookup_delete_eq. reflexivity.
  - rewrite lookup_insert_ne, lookup_delete_ne by exact Hne. reflexivity.
Qed.

(** X14.  The loaded configuration, whatever the environment: [Port] is
    always empty; [SQLitePath] is never empty; both reply delays are within
    the range of [int]; typing is shown exactly when [SHOW_TYPING] holds one
    of "1", "t", "T", "TRUE", "true", "True"; a variable set to the empty
    string counts as not set; and with nothing set the defaults are the
    path "./data/whatsapp.db", no group, no phone, delays 0 and no typing. *)
Theorem Load_properties (env : config.Environ) :
  config.Port (config.Load env) = ""
  /\ config.SQLitePath (config.Load env) <> ""
  /\ GoInt.inRange (config.ReplyDelayMinMs (config.Load env))
  /\ GoInt.inRange (config.ReplyDelayMaxMs (config.Load env))
  /\ (config.ShowTyping (config.Load env) = true
      <-> exists v, env !! "SHOW_TYPING" = Some v
                    /\ v ∈ strconv.trueSpellings)
  /\ (forall k, config.Load (<[k := ""]> env) = config.Load (delete k env))
  /\ config.Load ∅
     = config.mkConfig "" "./data/whatsapp.db" "" "" 0 0 false.
Proof.
  split; [reflexivity|].
  split.
  { cbn [config.Load config.SQLitePath]. unfold config.getenv.
    destruct (String.eqb_spec (config.Getenv env "SQLITE_PATH") "") as [_|Hne];
      cbn [negb]; [discriminate|exact Hne]. }
  split; [apply getenvInt_inRange; unfold GoInt.inRange; vm_compute;
          split; discriminate|].
  split; [apply getenvInt_inRange; unfold GoInt.inRange; vm_compute;
          split; discriminate|].
  split.
  { cbn [config.Load config.ShowTyping].
    unfold config.getenvBool.
    destruct (env !! "SHOW_TYPING") as [v|] eqn:Hv;
      [rewrite (Getenv_Some env _ _ Hv)|rewrite (Getenv_None env _ Hv)];
      cbv zeta.
    - unfold strconv.ParseBool.
      destruct (existsb (String.eqb v) strconv.trueSpellings) eqn:Htrue.
      + split.
        * intros _. exists v. split; [reflexivity|].
          apply existsb_exists in Htrue as (x & Hx & Heq).
          apply String.eqb_eq in Heq as ->. apply list_elem_of_In. exact Hx.
        * intros _.
          destruct (String.eqb_spec v ""); [|reflexivity].
          subst v. discriminate Htrue.
      + split.
        * intros Hshow.
          destruct (negb (v =? "")%string); [|discriminate Hshow].
          destruct (existsb (String.eqb v) strconv.falseSpellings);
            discriminate Hshow.
        * intros (v' & [= <-] & Hin). exfalso.
          apply list_elem_of_In in Hin.
          assert (existsb (String.eqb v) strconv.trueSpellings = true).
          { apply existsb_exists. exists v. split; [exact Hin|].
            apply String.eqb_refl. }
          congruence.
    - split; [discriminate|]. intros (v & Hv' & _). discriminate Hv'. }
  split; [|reflexivity].
  intros k. unfold config.Load, config.getenv, config.getenvInt,
    config.getenvBool.
  rewrite !Getenv_empty_is_unset. reflexivity.
Qed.

(* ===================================================================== *)
(** * Properties of the message handler *)
(* ===================================================================== *)

Section Handler.

Context {R : Type}.
Implicit Types (cfg : config.Config) (resolve : string -> string)
  (handleMessage : string -> string -> string -> R
                   -> (string * option error) * R)
  (draw : Z) (sendError : option error) (evt : bot.Event) (repo : R).

(** X15.  A message from another chat than the configured group, or from
    the bot itself, makes the handler return at once: no call goes out and
    the repository is not touched.  A message without text (an empty
    [Conversation] hides any extended text) is dropped after the LID
    lookup at most: nothing is printed or sent, the use case is not
    consulted, the repository is as it was. *)
Theorem handler_ignores
    cfg resolve handleMessage draw sendError evt repo :
  ((config.GroupID cfg <> "" /\ bot.Chat evt <> config.GroupID cfg)
   \/ bot.IsFromMe evt = true ->
   bot.handler cfg resolve handleMessage draw sendError evt repo
   = bot.Returned [] repo)
  /\ (bot.textOf evt = "" ->
      exists actions,
        bot.handler cfg resolve handleMessage draw sendError evt repo
        = bot.Returned actions repo
        /\ (actions = []
            \/ actions = [bot.ResolveLIDToPhone (bot.SenderUser evt)]))
  /\ (bot.Conversation evt = Some "" -> bot.textOf evt = "").
Proof.
  split; [|split].
  - unfold bot.handler. intros [[Hgroup Hchat]|Hme].
    + destruct (String.eqb_spec (config.GroupID cfg) ""); [contradiction|].
      destruct (String.eqb_spec (bot.Chat evt) (config.GroupID cfg));
        [contradiction|].
      reflexivity.
    + rewrite Hme. destruct (andb _ _); reflexivity.
  - intros Htext. unfold bot.handler. rewrite Htext.
    destruct (andb _ _); [eexists; split; [reflexivity|left; reflexivity]|].
    destruct (bot.IsFromMe evt);
      [eexists; split; [reflexivity|left; reflexivity]|].
    cbn [String.eqb]. destruct (bot.looksLikeLID evt);
      eexists; (split; [reflexivity|]); [right|left]; reflexivity.
  - unfold bot.textOf. intros ->. reflexivity.
Qed.

(** X16.  When both configured delays are [int]s and their difference stays
    below the largest [int], the handler never panics on the random draw:
    the delay is the minimum when the maximum is not larger, and otherwise
    lies between the two, both included. *)
Theorem replyDelay_within_bounds cfg draw :
  GoInt.inRange (config.ReplyDelayMinMs cfg) ->
  GoInt.inRange (config.ReplyDelayMaxMs cfg) ->
  config.ReplyDelayMaxMs cfg - config.ReplyDelayMinMs cfg < GoInt.MaxInt ->
  exists delayMs,
    bot.replyDelayMs cfg draw = Some delayMs
    /\ config.ReplyDelayMinMs cfg <= delayMs
    /\ delayMs <= Z.max (config.ReplyDelayMinMs cfg)
                    (config.ReplyDelayMaxMs cfg)
    /\ (config.ReplyDelayMaxMs cfg <= config.ReplyDelayMinMs cfg ->
        delayMs = config.ReplyDelayMinMs cfg).
Proof.
  intros Hmin Hmax Hdiff. unfold bot.replyDelayMs.
  set (lo := config.ReplyDelayMinMs cfg) in *.
  set (hi := config.ReplyDelayMaxMs cfg) in *.
  unfold GoInt.inRange, GoInt.MinInt, GoInt.MaxInt in *.
  rewrite Z.gtb_ltb. destruct (Z.ltb_spec lo hi) as [Hlt|Hge].
  - assert (Hn : GoInt.add (GoInt.add hi (- lo)) 1 = hi - lo + 1).
    { unfold GoInt.add.
      rewrite (wrap_small (hi + - lo))
        by (unfold GoInt.inRange, GoInt.MinInt, GoInt.MaxInt; lia).
      apply wrap_small.
      unfold GoInt.inRange, GoInt.MinInt, GoInt.MaxInt. lia. }
    rewrite Hn. unfold bot.Intn.
    destruct (Z.leb_spec (hi - lo + 1) 0); [lia|].
    pose proof (Z.mod_pos_bound draw (hi - lo + 1) ltac:(lia)) as Hr.
    eexists. split; [reflexivity|].
    unfold GoInt.add.
    rewrite wrap_small
      by (unfold GoInt.inRange, GoInt.MinInt, GoInt.MaxInt; lia).
    lia.
  - exists lo. split; [reflexivity|]. lia.
Qed.

End Handler.

(** Between half a second and two seconds. *)
Lemma replyDelay_within_bounds_witness :
  exists delayMs,
    bot.replyDelayMs (config.mkConfig "" "" "" "" 500 2000 true) 123456789
    = Some delayMs
    /\ 500 <= delayMs <= 2000.
Proof.
  destruct (replyDelay_within_bounds
              (config.mkConfig "" "" "" "" 500 2000 true) 123456789)
    as (delayMs & Heq & Hlo & Hhi & _).
  - unfold GoInt.inRange. vm_compute. split; discriminate.
  - unfold GoInt.inRange. vm_compute. split; discriminate.
  - vm_compute. reflexivity.
  - exists delayMs. split; [exact Heq|]. split; [exact Hlo|].
    cbn [config.ReplyDelayMinMs config.ReplyDelayMaxMs] in Hhi. lia.
Defined.

(** With the two delays at the ends of the [int] range the bound handed to
    [rand.Intn] wraps around to 0, and the handler panics. *)
Example replyDelay_panics_on_overflow :
  bot.replyDelayMs
    (config.mkConfig "" "" "" "" GoInt.MinInt GoInt.MaxInt false) 7
  = None.
Proof. vm_compute. reflexivity. Qed.

Lemma sentMessages_app (a b : list bot.Action) :
  bot.sentMessages (a ++ b) = (bot.sentMessages a ++ bot.sentMessages b)%list.
Proof. apply flat_map_app. Qed.

Lemma presences_app (a b : list bot.Action) :
  bot.presences (a ++ b) = (bot.presences a ++ bot.presences b)%list.
Proof. apply flat_map_app. Qed.

Lemma sleeps_app (a b : list bot.Action) :
  bot.sleeps (a ++ b) = (bot.sleeps a ++ bot.sleeps b)%list.
Proof. apply flat_map_app. Qed.

(** What the handler has done before it consults the use case sends and
    signals nothing. *)
Lemma printed_is_silent (evt : bot.Event) (line : string) :
  let printed :=
    ((if bot.looksLikeLID evt
      then [bot.ResolveLIDToPhone (bot.SenderUser evt)] else [])
     ++ [bot.Printf line])%list in
  bot.sentMessages printed = []
  /\ bot.presences printed = []
  /\ bot.sleeps printed = [].
Proof. destruct (bot.looksLikeLID evt); repeat split. Qed.

Lemma sendReply_effects cfg evt delayMs response sendError :
  let actions := bot.sendReply cfg evt delayMs response sendError in
  bot.sentMessages actions = [(bot.Chat evt, response)]
  /\ bot.presences actions
     = (if (delayMs >? 0) && config.ShowTyping cfg
        then [bot.ChatPresenceComposing; bot.ChatPresencePaused] else [])
  /\ bot.sleeps actions
     = (if delayMs >? 0 then [bot.millis delayMs] else []).
Proof.
  unfold bot.sendReply, bot.typing.
  destruct (delayMs >? 0), (config.ShowTyping cfg),
    sendError as [[e]|]; repeat split.
Qed.

Section HandlerReplies.

Context {R : Type}.
Implicit Types (cfg : config.Config) (resolve : string -> string)
  (handleMessage : string -> string -> string -> R
                   -> (string * option error) * R)
  (draw : Z) (sendError : option error) (evt : bot.Event) (repo : R).

(** X17.  Whatever the message, the configuration and the use case: the
    handler sends at most one message, and when it sends one it is the
    response of the use case, as it is, to the chat the message came from,
    the use case having returned no error and a non-empty response to a
    non-empty text that is not the bot's own; it sleeps at most once; it
    signals typing either not at all or as "composing" followed by "paused",
    and only when typing is switched on; the repository is left as the use
    case left it, or untouched. *)
Theorem handler_replies_at_most_once
    cfg resolve handleMessage draw sendError evt repo :
  let outcome :=
    bot.handler cfg resolve handleMessage draw sendError evt repo in
  let call :=
    handleMessage (bot.userIDOf resolve evt) (bot.pushNameOf evt)
      (bot.textOf evt) repo in
  let actions := bot.actionsOf outcome in
  (bot.sentMessages actions = []
   \/ (bot.sentMessages actions = [(bot.Chat evt, fst (fst call))]
       /\ snd (fst call) = None
       /\ fst (fst call) <> ""
       /\ bot.textOf evt <> ""
       /\ bot.IsFromMe evt = false))
  /\ (length (bot.sleeps actions) <= 1)%nat
  /\ (bot.presences actions = []
      \/ (config.ShowTyping cfg = true
          /\ bot.presences actions
             = [bot.ChatPresenceComposing; bot.ChatPresencePaused]))
  /\ (bot.repoOf outcome = repo \/ bot.repoOf outcome = snd call).
Proof.
  cbn zeta. unfold bot.handler.
  destruct (andb _ _);
    [cbn; repeat split; first [left; reflexivity | lia]|].
  destruct (bot.IsFromMe evt) eqn:Hme;
    [cbn; repeat split; first [left; reflexivity | lia]|].
  destruct (String.eqb_spec (bot.textOf evt) "") as [Htext|Htext].
  { cbn [bot.actionsOf bot.repoOf].
    destruct (bot.looksLikeLID evt); cbn;
      repeat split; first [left; reflexivity | lia]. }
  destruct (handleMessage _ _ _ repo) as [[response [[e]|]] repo1] eqn:Hcall.
  - cbn [bot.actionsOf bot.repoOf fst snd].
    rewrite sentMessages_app, sleeps_app, presences_app.
    destruct (printed_is_silent evt
                ("Message from " +:+ bot.pushNameOf evt +:+ " ("
                 +:+ bot.userIDOf resolve evt +:+ "): "
                 +:+ bot.textOf evt +:+ nl)) as (-> & -> & ->).
    cbn. repeat split; first [left; reflexivity | right; reflexivity | lia].
  - destruct (String.eqb_spec response "") as [Hresp|Hresp]; cbn [negb].
    + cbn [bot.actionsOf bot.repoOf fst snd].
      destruct (printed_is_silent evt
                  ("Message from " +:+ bot.pushNameOf evt +:+ " ("
                   +:+ bot.userIDOf resolve evt +:+ "): "
                   +:+ bot.textOf evt +:+ nl)) as (-> & -> & ->).
      cbn. repeat split; first [left; reflexivity | right; reflexivity | lia].
    + destruct (bot.replyDelayMs cfg draw) as [delayMs|].
      * cbn [bot.actionsOf bot.repoOf fst snd].
        rewrite sentMessages_app, sleeps_app, presences_app.
        destruct (printed_is_silent evt
                    ("Message from " +:+ bot.pushNameOf evt +:+ " ("
                     +:+ bot.userIDOf resolve evt +:+ "): "
                     +:+ bot.textOf evt +:+ nl)) as (-> & -> & ->).
        destruct (sendReply_effects cfg evt delayMs response sendError)
          as (-> & -> & ->).
        cbn [app].
        split; [right; repeat split; assumption|].
        split; [destruct (delayMs >? 0); cbn; lia|].
        split; [|right; reflexivity].
        destruct (delayMs >? 0), (config.ShowTyping cfg); cbn;
          first [left; reflexivity | right; split; reflexivity].
      * cbn [bot.actionsOf bot.repoOf fst snd].
        destruct (printed_is_silent evt
                    ("Message from " +:+ bot.pushNameOf evt +:+ " ("
                     +:+ bot.userIDOf resolve evt +:+ "): "
                     +:+ bot.textOf evt +:+ nl)) as (-> & -> & ->).
        cbn. repeat split;
          first [left; reflexivity | right; reflexivity | lia].
Qed.

(** X18.  The handler consults the use case only with the sender's user id
    (the resolved phone number when the sender is a LID: server "lid", or
    the default user server with a user part longer than 15 bytes), the
    push name or "Unknown" when that is empty, and the text: two use cases
    that answer alike on these give the same outcome. *)
Theorem handler_consults_use_case_once
    cfg resolve handleMessage handleMessage' draw sendError evt repo :
  (handleMessage (bot.userIDOf resolve evt) (bot.pushNameOf evt)
     (bot.textOf evt) repo
   = handleMessage' (bot.userIDOf resolve evt) (bot.pushNameOf evt)
       (bot.textOf evt) repo ->
   bot.handler cfg resolve handleMessage draw sendError evt repo
   = bot.handler cfg resolve handleMessage' draw sendError evt repo)
  /\ (bot.SenderServer evt = "lid" ->
      bot.userIDOf resolve evt = resolve (bot.SenderUser evt))
  /\ (bot.SenderServer evt = "s.whatsapp.net" ->
      bot.userIDOf resolve evt
      = if 15 <? Z.of_nat (String.length (bot.SenderUser evt))
        then resolve (bot.SenderUser evt) else bot.SenderUser evt)
  /\ (bot.SenderServer evt <> "lid" ->
      bot.SenderServer evt <> "s.whatsapp.net" ->
      bot.userIDOf resolve evt = bot.SenderUser evt)
  /\ (bot.PushName evt = "" -> bot.pushNameOf evt = "Unknown")
  /\ (bot.PushName evt <> "" -> bot.pushNameOf evt = bot.PushName evt).
Proof.
  split; [|split; [|split; [|split; [|split]]]].
  - intros Hsame. unfold bot.handler. rewrite Hsame. reflexivity.
  - intros Hlid. unfold bot.userIDOf, bot.looksLikeLID. rewrite Hlid.
    reflexivity.
  - intros Hsrv. unfold bot.userIDOf, bot.looksLikeLID. rewrite Hsrv.
    reflexivity.
  - intros Hlid Hsrv. unfold bot.userIDOf, bot.looksLikeLID.
    destruct (String.eqb_spec (bot.SenderServer evt) "lid");
      [contradiction|].
    destruct (String.eqb_spec (bot.SenderServer evt) bot.DefaultUserServer);
      [contradiction|].
    reflexivity.
  - unfold bot.pushNameOf. intros ->. reflexivity.
  - unfold bot.pushNameOf. intros Hne.
    destruct (String.eqb_spec (bot.PushName evt) ""); [contradiction|].
    reflexivity.
Qed.

End HandlerReplies.

(* ===================================================================== *)
(** * Properties of the test helpers *)
(* ===================================================================== *)

Lemma length_append (a b : string) :
  String.length (a +:+ b) = (String.length a + String.length b)%nat.
Proof.
  induction a as [|c a IH]; [reflexivity|].
  change (Datatypes.S (String.length (a +:+ b))
          = Datatypes.S (String.length a + String.length b)).
  rewrite IH. reflexivity.
Qed.

Lemma substring_prefix (sub post : string) :
  String.substring 0 (String.length sub) (sub +:+ post) = sub.
Proof.
  induction sub as [|c sub IH].
  - destruct post; reflexivity.
  - change (String c (String.substring 0 (String.length sub) (sub +:+ post))
            = String c sub).
    rewrite IH. reflexivity.
Qed.

Lemma substring_at (pre sub post : string) :
  String.substring (String.length pre) (String.length sub)
    (pre +:+ sub +:+ post) = sub.
Proof.
  induction pre as [|c pre IH]; [exact (substring_prefix sub post)|].
  exact IH.
Qed.

Lemma substring_0_split (sub : string) : forall s,
  String.substring 0 (String.length sub) s = sub ->
  exists post, s = sub +:+ post.
Proof.
  induction sub as [|c sub IH]; intros s Hs.
  - exists s. reflexivity.
  - destruct s as [|d s]; [discriminate Hs|].
    cbn [String.length String.substring] in Hs.
    injection Hs as -> Hs. destruct (IH s Hs) as (post & ->).
    exists post. reflexivity.
Qed.

Lemma substring_split (sub : string) : forall j s,
  (j + String.length sub <= String.length s)%nat ->
  String.substring j (String.length sub) s = sub ->
  exists pre post, s = pre +:+ sub +:+ post /\ String.length pre = j.
Proof.
  induction j as [|j IH]; intros s Hlen Hs.
  - destruct (substring_0_split sub s Hs) as (post & ->).
    exists "", post. split; reflexivity.
  - destruct s as [|c s]; [cbn in Hlen; lia|].
    cbn [String.substring] in Hs. cbn [String.length] in Hlen.
    destruct (IH s ltac:(lia) Hs) as (pre & post & -> & Hpre).
    exists (String c pre), post. split; [reflexivity|].
    cbn [String.length]. rewrite Hpre. reflexivity.
Qed.

(** The loop returns the first index, from [i] on and within the
    iterations it has, at which the slice equals [substr]. *)
Lemma indexOfFrom_spec s substr : forall remaining i,
  let r := usecase_test.indexOfFrom remaining i s substr in
  (r = -1
   /\ forall j, (i <= j < i + remaining)%nat ->
        String.substring j (String.length substr) s <> substr)
  \/ (exists k, r = Z.of_nat k
        /\ (i <= k < i + remaining)%nat
        /\ String.substring k (String.length substr) s = substr
        /\ forall j, (i <= j < k)%nat ->
             String.substring j (String.length substr) s <> substr).
Proof.
  induction remaining as [|remaining IH]; intros i; cbn zeta.
  - left. split; [reflexivity|]. intros j Hj. lia.
  - cbn [usecase_test.indexOfFrom].
    destruct (String.eqb_spec
                (String.substring i (String.length substr) s) substr)
      as [Heq|Hne].
    + right. exists i. split; [reflexivity|]. split; [lia|].
      split; [exact Heq|]. intros j Hj. lia.
    + destruct (IH (Datatypes.S i)) as [[Hr Hnone]|(k & Hr & Hk & Heq & Hfirst)].
      * left. split; [exact Hr|]. intros j Hj.
        destruct (Nat.eq_dec j i) as [->|Hji]; [exact Hne|].
        apply Hnone. lia.
      * right. exists k. split; [exact Hr|]. split; [lia|].
        split; [exact Heq|]. intros j Hj.
        destruct (Nat.eq_dec j i) as [->|Hji]; [exact Hne|].
        apply Hfirst. lia.
Qed.

(** X19.  [indexOf] returns the first position at which [substr] occurs in
    [s], and -1 exactly when it occurs nowhere: a result [i >= 0] splits [s]
    into [i] bytes, [substr] and a rest, with no occurrence starting
    earlier; a result of -1 means that [s] is not of the form
    [pre ++ substr ++ post]; there is no other result.  The empty [substr]
    is found at 0, and a [substr] longer than [s] is not found. *)
Theorem indexOf_first_occurrence (s substr : string) :
  (usecase_test.indexOf s substr = -1
   /\ forall pre post, s <> pre +:+ substr +:+ post)
  \/ (exists pre post,
        usecase_test.indexOf s substr = Z.of_nat (String.length pre)
        /\ s = pre +:+ substr +:+ post
        /\ forall pre' post',
             s = pre' +:+ substr +:+ post' ->
             (String.length pre <= String.length pre')%nat).
Proof.
  unfold usecase_test.indexOf.
  set (n := Z.to_nat (Z.of_nat (String.length s)
                      - Z.of_nat (String.length substr) + 1)).
  destruct (indexOfFrom_spec s substr n O)
    as [[Hr Hnone]|(k & Hr & Hk & Heq & Hfirst)]; cbn zeta in *.
  - left. split; [exact Hr|]. intros pre post ->.
    apply (Hnone (String.length pre)); [|apply substring_at].
    subst n. rewrite !length_append. lia.
  - right.
    destruct (substring_split substr k s ltac:(subst n; lia) Heq)
      as (pre & post & -> & Hpre).
    exists pre, post. rewrite Hpre. split; [exact Hr|].
    split; [reflexivity|].
    intros pre' post' Hs.
    destruct (Nat.le_gt_cases k (String.length pre')) as [Hle|Hgt];
      [exact Hle|].
    exfalso. apply (Hfirst (String.length pre') ltac:(lia)).
    rewrite Hs. apply substring_at.
Qed.

(** X20.  [containsSubstring] is true exactly when [s] is
    [pre ++ substr ++ post] for some [pre] and [post]; every string contains
    the empty one, and none contains a longer one. *)
Theorem containsSubstring_iff (s substr : string) :
  (usecase_test.containsSubstring s substr = true
   <-> exists pre post, s = pre +:+ substr +:+ post)
  /\ usecase_test.containsSubstring s "" = true
  /\ ((String.length s < String.length substr)%nat ->
      usecase_test.containsSubstring s substr = false).
Proof.
  assert (Hiff : forall s substr,
    usecase_test.containsSubstring s substr = true
    <-> exists pre post, s = pre +:+ substr +:+ post).
  { clear. intros s substr.
    unfold usecase_test.containsSubstring, usecase_test.indexOf.
    rewrite Z.geb_le.
    set (n := Z.to_nat (Z.of_nat (String.length s)
                        - Z.of_nat (String.length substr) + 1)).
    destruct (indexOfFrom_spec s substr n O)
      as [[Hr Hnone]|(k & Hr & Hk & Heq & _)]; cbn zeta in *.
    - rewrite Hr. split; [lia|]. intros (pre & post & ->).
      exfalso. apply (Hnone (String.length pre)); [|apply substring_at].
      subst n. rewrite !length_append. lia.
    - rewrite Hr. split; [|lia]. intros _.
      destruct (substring_split substr k s ltac:(subst n; lia) Heq)
        as (pre & post & Hs & _).
      exists pre, post. exact Hs. }
  split; [apply Hiff|]. split.
  - apply Hiff. exists "", s. reflexivity.
  - intros Hlen.
    destruct (usecase_test.containsSubstring s substr) eqn:Hc; [|reflexivity].
    apply Hiff in Hc as (pre & post & ->).
    rewrite !length_append in Hlen. lia.
Qed.
